(** * AgriWeather API server: reading pipeline, alerts and analytics

    A shallow embedding of [src/api_server.py] and the properties of its
    reading parser, latest-reading cache, alert engine, aggregation,
    irrigation recommendation, history and device-status operations.

    Conventions of the embedding.
    - A Python [str] is the list of its code points ([list N]); [<] and [>]
      on strings are the lexicographic order on code points.
    - A JSON number (int or float) is a rational ([Q]); [round(x, 2)] rounds
      to two decimals, ties to even.
    - A reading is a JSON object with the fields the producers write
      ([device_simulator.py]): a field is absent or carries a value of its
      documented type.
    - The process-wide dictionaries [latest_readings] and [alerts] are finite
      maps threaded through the operations; the blob container is a list of
      blobs, each with its data or the exception its download raises.
    - What the Python runtime supplies ([bytes.decode], [json.loads],
      [datetime.fromisoformat], the [:.1f] format) is an interface,
      [PyRuntime]. *)

From Stdlib Require Import ZArith QArith String Ascii.
From Stdlib.Strings Require Import Byte.
From stdpp Require Import gmap list sorting.

#[local] Open Scope Z_scope.

(** ** Strings *)

Abbreviation str := (list N).

(** A string literal of the source, code point by code point. *)
Definition lit (x : string) : str := N_of_ascii <$> list_ascii_of_string x.

Fixpoint str_compare (a b : str) : comparison :=
  match a, b with
  | [], [] => Eq
  | [], _ :: _ => Lt
  | _ :: _, [] => Gt
  | x :: a', y :: b' =>
      match N.compare x y with
      | Eq => str_compare a' b'
      | c => c
      end
  end.

(** [a < b] and [a <= b] on Python strings. *)
Definition str_ltb (a b : str) : bool :=
  match str_compare a b with Lt => true | _ => false end.
Definition str_leb (a b : str) : bool := negb (str_ltb b a).

(** [str.isspace] on one code point (CPython's [_PyUnicode_IsWhitespace]). *)
Definition is_space (c : N) : bool :=
  (((9 <=? c) && (c <=? 13)) || ((28 <=? c) && (c <=? 32))
   || (c =? 133) || (c =? 160) || (c =? 5760)
   || ((8192 <=? c) && (c <=? 8202))
   || (c =? 8232) || (c =? 8233) || (c =? 8239) || (c =? 8287)
   || (c =? 12288))%N.

Fixpoint lstrip (s : str) : str :=
  match s with
  | c :: s' => if is_space c then lstrip s' else s
  | [] => []
  end.

(** [s.strip()] *)
Definition strip (s : str) : str := rev (lstrip (rev (lstrip s))).

(** [s.split(sep)] for a one-character separator: never the empty list. *)
Fixpoint split (sep : N) (s : str) : list str :=
  match s with
  | [] => [[]]
  | c :: s' =>
      if (c =? sep)%N then [] :: split sep s'
      else match split sep s' with
           | l :: ls => (c :: l) :: ls
           | [] => [[c]]
           end
  end.

(** [s.replace(old, new)] for a one-character [old]. *)
Definition replace (old : N) (new : str) (s : str) : str :=
  flat_map (fun c => if (c =? old)%N then new else [c]) s.

(** [s.startswith(p)] *)
Fixpoint startswith (p s : str) : bool :=
  match p, s with
  | [], _ => true
  | _ :: _, [] => false
  | x :: p', y :: s' => (x =? y)%N && startswith p' s'
  end.

(** Truthiness of a string: [if s:] *)
Definition truthy (s : str) : bool :=
  match s with [] => false | _ => true end.

(** ** Sequences *)

(** [l[i:]] for any integer [i]: a negative [i] counts from the end, and
    [l[-0:]] is [l[0:]], the whole list. *)
Definition slice_from {A} (l : list A) (i : Z) : list A :=
  if i <? 0 then drop (Z.to_nat (Z.max 0 (Z.of_nat (length l) + i))) l
  else drop (Z.to_nat i) l.

(** [l.sort(key=key)]: Python's sort is stable, so it is the stable
    insertion sort on the keys. *)
Section Sort.
Context {A : Type} (key : A -> str).

Fixpoint insert_sorted (x : A) (l : list A) : list A :=
  match l with
  | [] => [x]
  | y :: l' =>
      if str_leb (key x) (key y) then x :: y :: l'
      else y :: insert_sorted x l'
  end.

Definition sort_by (l : list A) : list A := foldr insert_sorted [] l.
End Sort.

(** ** Numbers *)

(** [round(x, 2)]: the nearest multiple of 1/100, ties to the even one. *)
Definition round2 (x : Q) : Q :=
  let n := Qnum x * 100 in
  let d := Zpos (Qden x) in
  let q := n / d in
  let r := n mod d in
  let up :=
    match (2 * r) ?= d with
    | Lt => false
    | Gt => true
    | Eq => Z.odd q
    end in
  Qred ((if up then q + 1 else q) # 100).

Definition Qltb (a b : Q) : bool := negb (Qle_bool b a).

(** [min(l)] and [max(l)] of a non-empty list: the first extremal element. *)
Definition min_list_Q (x : Q) (l : list Q) : Q :=
  fold_left (fun m y => if Qltb y m then y else m) l x.
Definition max_list_Q (x : Q) (l : list Q) : Q :=
  fold_left (fun m y => if Qltb m y then y else m) l x.
(** [sum(l)] *)
Definition sum_Q (l : list Q) : Q := fold_left Qplus l 0%Q.

(** ** Data model *)

(** A reading, as written by the producers; every field is optional. *)
Record Reading := mkReading {
  device_id : option str;
  timestamp : option str;
  location : option (Q * Q);
  temperature : option Q;
  humidity : option Q;
  rainfall : option Q;
  soil_moisture : option Q;
  wind_speed : option Q
}.

(** The empty dictionary [{}]. *)
Definition empty_reading : Reading :=
  mkReading None None None None None None None None.

(** [not reading]: a dictionary is falsy exactly when it has no key. *)
Definition is_empty (r : Reading) : bool :=
  match device_id r, timestamp r, location r, temperature r,
        humidity r, rainfall r, soil_moisture r, wind_speed r with
  | None, None, None, None, None, None, None, None => true
  | _, _, _, _, _, _, _, _ => false
  end.

(** [x.get('timestamp', '')] *)
Definition get_timestamp (r : Reading) : str := default [] (timestamp r).

(** A [datetime]: wall-clock microseconds and the UTC offset, in
    microseconds, of an aware value. *)
Record datetime := mkDatetime {
  wall : Z;
  tzinfo : option Z
}.

(** [a - b] on datetimes: [None] is the TypeError for mixing naive and
    aware values. *)
Definition datetime_sub (a b : datetime) : option Z :=
  match tzinfo a, tzinfo b with
  | None, None => Some (wall a - wall b)
  | Some oa, Some ob => Some ((wall a - oa) - (wall b - ob))
  | _, _ => None
  end.

(** [timedelta(hours=1)] in microseconds. *)
Definition one_hour : Z := 3600 * 1000000.

(** What the Python runtime and its standard library supply. *)
Class PyRuntime := {
  (** [b.decode('utf-8')], [None] for UnicodeDecodeError *)
  utf8_decode : list byte -> option str;
  (** [json.loads(line)] for a line holding a JSON object, [None] for
      JSONDecodeError *)
  json_loads : str -> option Reading;
  (** [datetime.fromisoformat(s)], [None] for ValueError *)
  fromisoformat : str -> option datetime;
  (** [f"{x:.1f}"] *)
  format_1f : Q -> str
}.

(** ** Reading parser *)

Inductive BlobContent :=
  | Bytes (b : list byte)
  | Str (s : str).

Section Parser.
Context `{PyRuntime}.

(** The loop over [lines], appending to [data]; [None] is an exception
    raised by [json.loads]. *)
Fixpoint parse_lines (lines : list str) (data : list Reading)
  : option (list Reading) :=
  match lines with
  | [] => Some data
  | line :: rest =>
      if truthy (strip line) then
        match json_loads line with
        | Some r => parse_lines rest (data ++ [r])
        | None => None
        end
      else parse_lines rest data
  end.

(** The text of a blob: decoded when it is [bytes]. *)
Definition content_text (blob_content : BlobContent) : option str :=
  match blob_content with
  | Bytes b => utf8_decode b
  | Str s => Some s
  end.

Definition parse_blob_data (blob_content : BlobContent) : list Reading :=
  match content_text blob_content with
  | Some text =>
      match parse_lines (split 10 (strip text)) [] with
      | Some data => data
      | None => []
      end
  | None => []
  end.
End Parser.

(** ** Alerts *)

Inductive AlertType :=
  | frost | low_temperature | high_temperature
  | low_soil_moisture | high_wind | low_humidity.

Inductive Severity := critical | warning | info.

#[global] Instance AlertType_eq_dec : EqDecision AlertType.
Proof. solve_decision. Defined.

Module Alert.
Record t := mk {
  type : AlertType;
  severity : Severity;
  message : str;
  timestamp : str;
  value : Q;
  threshold : Q
}.
End Alert.

(** The degree sign of the messages. *)
Definition deg : str := [176%N].

(** ** Process state and the blob container *)

Record Device := mkDevice {
  dev_name : str;
  dev_location : Q * Q;
  registered_at : str;
  dev_status : str
}.

(** [latest_readings] and [alerts], the two dictionaries the handlers and
    the polling thread share. *)
Record State := mkState {
  latest_readings : gmap str Reading;
  alerts : gmap str (list Alert.t)
}.

(** [download_blob().readall()]: the data, or the exception it raises with
    its text. *)
Inductive Download :=
  | Data (blob_data : BlobContent)
  | Raises (e : str).

Record Blob := mkBlob {
  name : str;
  last_modified : Z;
  content : Download
}.

(** [container_client.list_blobs(name_starts_with=prefix)] *)
Definition list_blobs (container : list Blob) (prefix : str) : list Blob :=
  List.filter (fun b => startswith prefix (name b)) container.

(** The outcome of a handler: the JSON body with status 200, or an error
    body with its status code. *)
Inductive Response (A : Type) :=
  | Ok (body : A)
  | Err (code : Z) (error : str).
Arguments Ok {A} body.
Arguments Err {A} code error.

Section Engine.
Context `{PyRuntime}.
#[local] Open Scope Q_scope.

(** The body of [check_conditions_and_generate_alerts] up to the update
    of [alerts]: the list [new_alerts]. [now] is
    [datetime.now(timezone.utc).isoformat()]. *)
Definition new_alerts (now : str) (reading : Reading) : list Alert.t :=
  let temp := default 0 (temperature reading) in
  let soil := default 50 (soil_moisture reading) in
  let wind := default 0 (wind_speed reading) in
  let hum := default 50 (humidity reading) in
  (if Qltb temp 0 then
     [Alert.mk frost critical
        (lit "Frost warning! Temperature is " ++ format_1f temp ++ deg
         ++ lit "C. Protect your crops immediately.")
        now temp 0]
   else if Qltb temp 5 then
     [Alert.mk low_temperature warning
        (lit "Low temperature alert: " ++ format_1f temp ++ deg
         ++ lit "C. Monitor for frost risk.")
        now temp 5]
   else [])
  ++ (if Qltb 35 temp then
        [Alert.mk high_temperature warning
           (lit "High temperature warning: " ++ format_1f temp ++ deg
            ++ lit "C. Crops may experience heat stress.")
           now temp 35]
      else [])
  ++ (if Qltb soil 30 then
        [Alert.mk low_soil_moisture warning
           (lit "Low soil moisture: " ++ format_1f soil
            ++ lit "%. Irrigation recommended.")
           now soil 30]
      else [])
  ++ (if Qltb 40 wind then
        [Alert.mk high_wind warning
           (lit "High wind warning: " ++ format_1f wind
            ++ lit " km/h. Potential crop damage risk.")
           now wind 40]
      else [])
  ++ (if Qltb hum 20 then
        [Alert.mk low_humidity info
           (lit "Low humidity: " ++ format_1f hum
            ++ lit "%. Increased water loss risk.")
           now hum 20]
      else []).

Definition check_conditions_and_generate_alerts
    (now : str) (device_id : str) (reading : Reading)
    (alerts : gmap str (list Alert.t)) : gmap str (list Alert.t) :=
  if is_empty reading then alerts
  else
    let alerts_list := default [] (alerts !! device_id) in
    let alerts_list := alerts_list ++ new_alerts now reading in
    <[device_id := slice_from alerts_list (-50)]> alerts.

(** ** Poller *)

(** One pass of the [for blob in blobs] loop: a blob whose download raises
    is skipped. *)
Definition read_all (blobs : list Blob) : list Reading :=
  flat_map (fun blob =>
              match content blob with
              | Data blob_data => parse_blob_data blob_data
              | Raises _ => []
              end) blobs.

(** The body of the [for device_id in devices_registry.keys()] loop. *)
Definition poll_device (container : list Blob) (now : str)
    (device_id : str) (st : State) : State :=
  match list_blobs container (device_id ++ lit "/") with
  | [] => st
  | blobs =>
      match read_all blobs with
      | [] => st
      | all_readings =>
          match last (sort_by get_timestamp all_readings) with
          | Some latest =>
              let current_timestamp :=
                get_timestamp
                  (default empty_reading (latest_readings st !! device_id)) in
              let new_timestamp := get_timestamp latest in
              if str_ltb current_timestamp new_timestamp
                 || negb (truthy current_timestamp)
              then
                mkState (<[device_id := latest]> (latest_readings st))
                  (check_conditions_and_generate_alerts
                     now device_id latest (alerts st))
              else st
          | None => st
          end
      end
  end.

(** One iteration of the [while polling_active] loop of
    [poll_sensor_data]: nothing happens without a storage client. *)
Definition poll_once (blob_service_client : option (list Blob))
    (now : str) (devices_registry : list (str * Device)) (st : State)
  : State :=
  match blob_service_client with
  | None => st
  | Some container =>
      foldl (fun st device_id => poll_device container now device_id st)
        st (devices_registry.*1)
  end.

(** ** Current reading *)

(** [max(blobs, key=lambda b: b.last_modified)]: the first maximal blob. *)
Definition max_by_last_modified (b : Blob) (blobs : list Blob) : Blob :=
  fold_left
    (fun m b => if (last_modified m <? last_modified b)%Z then b else m)
    blobs b.

Definition get_current_reading
    (blob_service_client : option (list Blob)) (device_id : str)
    (st : State) : State * Response Reading :=
  match latest_readings st !! device_id with
  | Some r => (st, Ok r)
  | None =>
      match blob_service_client with
      | None => (st, Err 503 (lit "Storage not configured"))
      | Some container =>
          match list_blobs container (device_id ++ lit "/") with
          | [] => (st, Err 404 (lit "No data found for device"))
          | b :: blobs =>
              let latest_blob := max_by_last_modified b blobs in
              match content latest_blob with
              | Raises e => (st, Err 500 e)
              | Data blob_data =>
                  match last (parse_blob_data blob_data) with
                  | Some latest =>
                      (mkState (<[device_id := latest]> (latest_readings st))
                         (alerts st),
                       Ok latest)
                  | None => (st, Err 404 (lit "No readings found"))
                  end
              end
          end
      end
  end.

(** ** History *)

(** [if x:] for an optional query argument: absent and empty are falsy. *)
Definition given (x : option str) : bool :=
  match x with Some s => truthy s | None => false end.

(** The filter of [get_history] on the readings of one blob. *)
Definition filter_range (from_date to_date : option str)
    (readings : list Reading) : list Reading :=
  if given from_date || given to_date then
    List.filter
      (fun reading =>
         let reading_time := get_timestamp reading in
         negb (given from_date
               && str_ltb reading_time (default [] from_date))
         && negb (given to_date
                  && str_ltb (default [] to_date) reading_time))
      readings
  else readings.

(** The [for blob in blobs] loop of [get_history]; [inl e] is the
    exception of a failed download. *)
Fixpoint history_loop (from_date to_date : option str)
    (blobs : list Blob) (all_readings : list Reading)
  : str + list Reading :=
  match blobs with
  | [] => inr all_readings
  | blob :: rest =>
      match content blob with
      | Raises e => inl e
      | Data blob_data =>
          history_loop from_date to_date rest
            (all_readings
             ++ filter_range from_date to_date (parse_blob_data blob_data))
      end
  end.

Record History := mkHistory {
  h_device_id : str;
  readings : list Reading;
  count : nat
}.

(** The listing prefix of [get_history]. *)
Definition history_prefix (device_id : str) (from_date : option str) : str :=
  let prefix := device_id ++ lit "/" in
  if given from_date then
    prefix ++ replace 45 (lit "/") (take 10 (default [] from_date)) ++ lit "/"
  else prefix.

Definition get_history (blob_service_client : option (list Blob))
    (device_id : str) (from_date to_date : option str) (limit : Z)
  : Response History :=
  match blob_service_client with
  | None => Err 503 (lit "Storage not configured")
  | Some container =>
      let blobs := list_blobs container (history_prefix device_id from_date) in
      match history_loop from_date to_date blobs [] with
      | inl e => Err 500 e
      | inr all_readings =>
          let all_readings := sort_by get_timestamp all_readings in
          let all_readings := slice_from all_readings (- limit) in
          Ok (mkHistory device_id all_readings (length all_readings))
      end
  end.

(** ** Aggregation *)

Record Stats := mkStats { s_min : Q; s_max : Q; s_avg : Q }.
Record RainStats := mkRainStats { total : Q; r_avg : Q }.

Record Aggregated := mkAggregated {
  a_device_id : str;
  period : str;
  a_temperature : Stats;
  a_humidity : Stats;
  a_rainfall : RainStats;
  readings_count : nat
}.

(** [[r.get(f, 0) for r in all_readings if f in r]] *)
Definition present (field : Reading -> option Q)
    (all_readings : list Reading) : list Q :=
  omap field all_readings.

(** [round(sum(l) / len(l), 2) if l else 0] *)
Definition avg_or_zero (l : list Q) : Q :=
  match l with
  | [] => 0
  | _ => round2 (sum_Q l / inject_Z (Z.of_nat (length l)))
  end.

Definition stats_of (l : list Q) : Stats :=
  match l with
  | [] => mkStats 0 0 0
  | x :: l' =>
      mkStats (round2 (min_list_Q x l')) (round2 (max_list_Q x l'))
        (avg_or_zero l)
  end.

(** The [for blob in blobs] loop of [get_aggregated_data]. *)
Fixpoint aggregate_loop (blobs : list Blob) (all_readings : list Reading)
  : str + list Reading :=
  match blobs with
  | [] => inr all_readings
  | blob :: rest =>
      match content blob with
      | Raises e => inl e
      | Data blob_data =>
          aggregate_loop rest (all_readings ++ parse_blob_data blob_data)
      end
  end.

Definition get_aggregated_data (blob_service_client : option (list Blob))
    (device_id : option str) (period : str) : Response Aggregated :=
  if negb (given device_id) then
    Err 400 (lit "device_id parameter required")
  else
    match blob_service_client with
    | None => Err 503 (lit "Storage not configured")
    | Some container =>
        let device_id := default [] device_id in
        let blobs := list_blobs container (device_id ++ lit "/") in
        match aggregate_loop blobs [] with
        | inl e => Err 500 e
        | inr [] => Err 404 (lit "No data found")
        | inr all_readings =>
            let temps := present temperature all_readings in
            let humidities := present humidity all_readings in
            let rainfalls := present rainfall all_readings in
            Ok (mkAggregated device_id period
                  (stats_of temps) (stats_of humidities)
                  (mkRainStats (round2 (sum_Q rainfalls))
                     (avg_or_zero rainfalls))
                  (length all_readings))
        end
    end.

(** ** Irrigation recommendation *)

(** The rule chain of [get_irrigation_recommendation]: the values of
    [needs_irrigation], [recommendation] and [water_amount] after it. *)
Definition irrigation_rule (soil temp rain : Q) : bool * str * Q :=
  if Qltb soil 30 then
    (true, lit "Irrigation recommended - soil moisture is low",
     10 + (30 - soil) * (1 # 2))
  else if Qltb soil 40 && Qltb 25 temp then
    (true,
     lit "Light irrigation recommended - high temperature and moderate soil moisture",
     5)
  else if Qltb 5 rain then
    (false, lit "Recent rainfall detected - no irrigation needed", 0)
  else
    (false, lit "Soil moisture levels are adequate", 0).

Record Conditions := mkConditions {
  c_soil_moisture : Q;
  c_temperature : Q;
  c_rainfall : Q;
  c_humidity : Q
}.

Record Irrigation := mkIrrigation {
  i_device_id : str;
  crop_type : str;
  current_conditions : Conditions;
  recommendation : str;
  needs_irrigation : bool;
  suggested_water_amount_liters : Q;
  i_timestamp : str
}.

Definition is_ok {A} (r : Response A) : bool :=
  match r with Ok _ => true | Err _ _ => false end.

Definition get_irrigation_recommendation
    (blob_service_client : option (list Blob)) (now : str)
    (device_id : option str) (crop_type : str) (st : State)
  : State * Response Irrigation :=
  if negb (given device_id) then
    (st, Err 400 (lit "device_id parameter required"))
  else
    let device_id := default [] device_id in
    let '(st, fetched) :=
      match latest_readings st !! device_id with
      | Some _ => (st, true)
      | None =>
          let '(st, response) :=
            get_current_reading blob_service_client device_id st in
          (st, is_ok response)
      end in
    if negb fetched then
      (st, Err 404 (lit "Could not retrieve current data"))
    else
      let current :=
        default empty_reading (latest_readings st !! device_id) in
      let soil := default 50 (soil_moisture current) in
      let temp := default 20 (temperature current) in
      let rain := default 0 (rainfall current) in
      let hum := default 50 (humidity current) in
      let '(needs, text, water_amount) := irrigation_rule soil temp rain in
      (st,
       Ok (mkIrrigation device_id crop_type
             (mkConditions soil temp rain hum)
             text needs (round2 water_amount) now)).

(** ** Device status *)

Inductive Status := online | offline | unknown.

Record DeviceStatus := mkDeviceStatus {
  ds_device_id : str;
  status : Status;
  last_seen : option str;
  registered : str
}.

(** [devices_registry.get(device_id)] on the registry in insertion order. *)
Fixpoint registry_get (devices_registry : list (str * Device))
    (device_id : str) : option Device :=
  match devices_registry with
  | [] => None
  | (k, d) :: rest =>
      if bool_decide (k = device_id) then Some d
      else registry_get rest device_id
  end.

(** The [try] block of [get_device_status]; [None] is any exception.
    [now] is the UTC wall clock of [datetime.now(timezone.utc)], in
    microseconds. *)
Definition time_diff (now : Z) (last_seen : option str) : option Z :=
  match last_seen with
  | None => None
  | Some s =>
      match fromisoformat (replace 90 (lit "+00:00") s) with
      | None => None
      | Some last_time =>
          datetime_sub (mkDatetime now (tzinfo last_time)) last_time
      end
  end.

Definition get_device_status (devices_registry : list (str * Device))
    (now : Z) (device_id : str) (st : State) : Response DeviceStatus :=
  match registry_get devices_registry device_id with
  | None => Err 404 (lit "Device not found")
  | Some device =>
      let '(status, last_seen) :=
        match latest_readings st !! device_id with
        | None => (unknown, None)
        | Some r =>
            let last_seen := timestamp r in
            (match time_diff now last_seen with
             | Some d => if (d <? one_hour)%Z then online else offline
             | None => unknown
             end, last_seen)
        end in
      Ok (mkDeviceStatus device_id status last_seen (registered_at device))
  end.
End Engine.

(** ** A concrete runtime for evaluation

    The interface [PyRuntime] on the inputs the examples use: ASCII bytes,
    one-line JSON objects in the layout [json.dumps] writes (members
    separated by a comma and a space, a colon and a space after each key)
    whose values are plain strings or integers, and timestamps of the form
    [YYYY-MM-DDTHH:MM:SS] with an optional [+HH:MM] or [-HH:MM] offset.
    Outside these inputs it answers [None]. *)
Module Sample.

(** [b.decode('utf-8')] on ASCII bytes: the bytes are the code points. *)
Definition ascii_decode (b : list byte) : option str :=
  let cps := (fun x => N.of_nat (Byte.to_nat x)) <$> b in
  if forallb (fun c => (c <? 128)%N) cps then Some cps else None.

Definition dq : str := [34%N].

Definition is_digit (c : N) : bool := ((48 <=? c) && (c <=? 57))%N.

(** The value of a string of decimal digits. *)
Definition digits_value (s : str) : Z :=
  fold_left (fun acc c => acc * 10 + (Z.of_N c - 48)) s 0.

(** A JSON integer: an optional minus sign, then [0] or digits that do
    not start with [0]. *)
Definition number (s : str) : option Z :=
  let '(neg, ds) :=
    match s with
    | 45%N :: s' => (true, s')
    | _ => (false, s)
    end in
  match ds with
  | [] => None
  | d :: ds' =>
      if forallb is_digit ds
         && (negb (d =? 48)%N || bool_decide (ds' = []))
      then Some (if neg then - digits_value ds else digits_value ds)
      else None
  end.

(** The string without the literal prefix [p]. *)
Fixpoint after (p s : str) : option str :=
  match p, s with
  | [], _ => Some s
  | _ :: _, [] => None
  | x :: p', y :: s' => if (x =? y)%N then after p' s' else None
  end.

(** The longest prefix of characters satisfying [p], and the rest. *)
Fixpoint span (p : N -> bool) (s : str) : str * str :=
  match s with
  | c :: s' =>
      if p c then let '(a, b) := span p s' in (c :: a, b) else ([], s)
  | [] => ([], [])
  end.

(** A character that stands for itself inside a JSON string: printable
    ASCII other than the quote and the backslash. *)
Definition plain (c : N) : bool :=
  ((32 <=? c) && (c <=? 126) && negb (c =? 34) && negb (c =? 92))%N.

(** The body of a JSON string up to its closing quote, and the rest. *)
Definition text (s : str) : option (str * str) :=
  let '(v, rest) := span plain s in
  rest ← after dq rest; Some (v, rest).

Definition set_text (k v : str) (r : Reading) : option Reading :=
  if bool_decide (k = lit "timestamp") then
    Some (mkReading (device_id r) (Some v) (location r) (temperature r)
            (humidity r) (rainfall r) (soil_moisture r) (wind_speed r))
  else if bool_decide (k = lit "device_id") then
    Some (mkReading (Some v) (timestamp r) (location r) (temperature r)
            (humidity r) (rainfall r) (soil_moisture r) (wind_speed r))
  else None.

Definition set_number (k : str) (q : Q) (r : Reading) : option Reading :=
  if bool_decide (k = lit "temperature") then
    Some (mkReading (device_id r) (timestamp r) (location r) (Some q)
            (humidity r) (rainfall r) (soil_moisture r) (wind_speed r))
  else if bool_decide (k = lit "humidity") then
    Some (mkReading (device_id r) (timestamp r) (location r)
            (temperature r) (Some q) (rainfall r) (soil_moisture r)
            (wind_speed r))
  else if bool_decide (k = lit "rainfall") then
    Some (mkReading (device_id r) (timestamp r) (location r)
            (temperature r) (humidity r) (Some q) (soil_moisture r)
            (wind_speed r))
  else if bool_decide (k = lit "soil_moisture") then
    Some (mkReading (device_id r) (timestamp r) (location r)
            (temperature r) (humidity r) (rainfall r) (Some q)
            (wind_speed r))
  else if bool_decide (k = lit "wind_speed") then
    Some (mkReading (device_id r) (timestamp r) (location r)
            (temperature r) (humidity r) (rainfall r) (soil_moisture r)
            (Some q))
  else None.

(** The members of an object after its opening brace, up to and
    including the closing brace; a later member overrides an earlier one
    with the same key. [fuel] bounds the number of members. *)
Fixpoint members (fuel : nat) (s : str) (r : Reading) : option Reading :=
  match fuel with
  | O => None
  | S fuel =>
      s ← after dq s;
      '(k, s) ← text s;
      s ← after (lit ": ") s;
      '(r, s) ←
        match after dq s with
        | Some s' => '(v, s'') ← text s'; r' ← set_text k v r; Some (r', s'')
        | None =>
            let '(v, s') := span (fun c => is_digit c || (c =? 45)%N) s in
            z ← number v; r' ← set_number k (inject_Z z) r; Some (r', s')
        end;
      if bool_decide (s = lit "}") then Some r
      else s ← after (lit ", ") s; members fuel s r
  end.

(** The whitespace JSON allows around a document. *)
Definition json_ws (c : N) : bool :=
  ((c =? 32) || (c =? 9) || (c =? 10) || (c =? 13))%N.

Definition loads (line : str) : option Reading :=
  let s := (span json_ws line).2 in
  let s := rev (span json_ws (rev s)).2 in
  if bool_decide (s = lit "{}") then Some empty_reading
  else s ← after (lit "{") s; members (length s) s empty_reading.

(** Days from 1970-01-01 to a date of the proleptic Gregorian calendar. *)
Definition days_from_civil (y m d : Z) : Z :=
  let y := if m <=? 2 then y - 1 else y in
  let era := y / 400 in
  let yoe := y - era * 400 in
  let doy := (153 * (if 2 <? m then m - 3 else m + 9) + 2) / 5 + d - 1 in
  let doe := yoe * 365 + yoe / 4 - yoe / 100 + doy in
  era * 146097 + doe - 719468.

Definition days_in_month (y m : Z) : Z :=
  if m =? 2 then
    if ((y mod 4 =? 0) && negb (y mod 100 =? 0)) || (y mod 400 =? 0)
    then 29 else 28
  else if (m =? 4) || (m =? 6) || (m =? 9) || (m =? 11) then 30
  else 31.

(** [n] decimal digits at the front of [s], and the rest. *)
Definition fixed (n : nat) (s : str) : option (Z * str) :=
  let ds := take n s in
  if (length ds =? n)%nat && forallb is_digit ds
  then Some (digits_value ds, drop n s) else None.

(** The offset [+HH:MM] or [-HH:MM], in microseconds. *)
Definition offset (s : str) : option Z :=
  match s with
  | sign :: s =>
      if ((sign =? 43) || (sign =? 45))%N then
        '(hh, s) ← fixed 2 s;
        s ← after (lit ":") s;
        '(mm, s) ← fixed 2 s;
        if bool_decide (s = []) && (hh <? 24) && (mm <? 60) then
          let us := (hh * 3600 + mm * 60) * 1000000 in
          Some (if (sign =? 45)%N then - us else us)
        else None
      else None
  | [] => None
  end.

Definition isoformat (s : str) : option datetime :=
  '(y, s) ← fixed 4 s;
  s ← after (lit "-") s;
  '(m, s) ← fixed 2 s;
  s ← after (lit "-") s;
  '(d, s) ← fixed 2 s;
  s ← after (lit "T") s;
  '(hh, s) ← fixed 2 s;
  s ← after (lit ":") s;
  '(mi, s) ← fixed 2 s;
  s ← after (lit ":") s;
  '(ss, s) ← fixed 2 s;
  if (1 <=? y) && (1 <=? m) && (m <=? 12) && (1 <=? d)
     && (d <=? days_in_month y m) && (hh <? 24) && (mi <? 60) && (ss <? 60)
  then
    let w :=
      ((days_from_civil y m d * 86400) + hh * 3600 + mi * 60 + ss)
      * 1000000 in
    match s with
    | [] => Some (mkDatetime w None)
    | _ => o ← offset s; Some (mkDatetime w (Some o))
    end
  else None.

(** The decimal digits of a natural number. *)
Fixpoint decimal (fuel : nat) (n : Z) (acc : str) : str :=
  match fuel with
  | O => acc
  | S fuel =>
      let acc := Z.to_N (48 + n mod 10) :: acc in
      if n <? 10 then acc else decimal fuel (n / 10) acc
  end.

(** [f"{x:.1f}"]: one decimal, ties to even. *)
Definition one_decimal (x : Q) : str :=
  let n := Z.abs (Qnum x) * 10 in
  let d := Zpos (Qden x) in
  let q := n / d in
  let r := n mod d in
  let t :=
    match (2 * r) ?= d with
    | Lt => q
    | Gt => q + 1
    | Eq => if Z.odd q then q + 1 else q
    end in
  (if Qnum x <? 0 then lit "-" else [])
  ++ decimal (S (Z.to_nat (Z.log2 (t / 10 + 1)))) (t / 10) []
  ++ lit "." ++ [Z.to_N (48 + t mod 10)].

#[export] Instance runtime : PyRuntime := {
  utf8_decode := ascii_decode;
  json_loads := loads;
  fromisoformat := isoformat;
  format_1f := one_decimal
}.

(** The JSON text of a member with a string value and of one with an
    integer value, and of the object with the given members. *)
Definition member_text (k v : string) : str :=
  dq ++ lit k ++ dq ++ lit ": " ++ dq ++ lit v ++ dq.
Definition member_number (k v : string) : str :=
  dq ++ lit k ++ dq ++ lit ": " ++ lit v.
Fixpoint join (sep : str) (l : list str) : str :=
  match l with
  | [] => []
  | [x] => x
  | x :: l' => x ++ sep ++ join sep l'
  end.
Definition json_object (ms : list str) : str :=
  lit "{" ++ join (lit ", ") ms ++ lit "}".

(** A reading that carries only a timestamp. *)
Definition at_time (ts : string) : Reading :=
  mkReading None (Some (lit ts)) None None None None None None.

Definition bytes_of (s : str) : list byte :=
  omap (fun c => Byte.of_nat (N.to_nat c)) s.
End Sample.

(** ** Vocabulary of the statements *)

Definition str_le (a b : str) : Prop := str_leb a b = true.
Definition str_lt (a b : str) : Prop := str_ltb a b = true.

(** The order of a list sorted by a string key. *)
Definition key_le {A} (key : A -> str) (x y : A) : Prop :=
  str_le (key x) (key y).

(** The lines of a shard that the parser hands to [json.loads]. *)
Definition nonblank_lines (text : str) : list str :=
  List.filter (fun line => truthy (strip line)) (split 10 (strip text)).

(** The timestamp the cache holds for a device, the empty string when it
    holds none: [latest_readings.get(device_id, {}).get('timestamp', '')]. *)
Definition cached_timestamp (st : State) (device_id : str) : str :=
  get_timestamp (default empty_reading (latest_readings st !! device_id)).

(** The operations that write [latest_readings]: a tick of the poller, and
    the two handlers that fetch a reading on demand. *)
Inductive Op :=
  | PollTick (blob_service_client : option (list Blob)) (now : str)
      (devices_registry : list (str * Device))
  | CurrentReading (blob_service_client : option (list Blob))
      (device_id : str)
  | IrrigationRequest (blob_service_client : option (list Blob)) (now : str)
      (device_id : option str) (crop : str).

Section Vocabulary.
Context `{PyRuntime}.

Definition run_op (st : State) (op : Op) : State :=
  match op with
  | PollTick client now registry => poll_once client now registry st
  | CurrentReading client device_id =>
      (get_current_reading client device_id st).1
  | IrrigationRequest client now device_id crop =>
      (get_irrigation_recommendation client now device_id crop st).1
  end.

Definition run (ops : list Op) (st : State) : State := foldl run_op st ops.

(** The readings a poller tick gathers for a device. *)
Definition gathered (container : list Blob) (device_id : str)
  : list Reading :=
  read_all (list_blobs container (device_id ++ lit "/")).

(** The parsed timestamp of the cached reading of a device, when there
    is one. *)
Definition last_seen_time (st : State) (device_id : str) : option datetime :=
  r ← latest_readings st !! device_id;
  s ← timestamp r;
  fromisoformat (replace 90 (lit "+00:00") s).

(** The types of the alerts one evaluation raises. *)
Definition alert_types (now : str) (reading : Reading) : list AlertType :=
  Alert.type <$> new_alerts now reading.

(** A series of calls of the alert engine, each with its clock reading,
    device and reading. *)
Definition engine_calls (calls : list (str * str * Reading))
    (alerts : gmap str (list Alert.t)) : gmap str (list Alert.t) :=
  foldl (fun alerts '(now, device_id, reading) =>
           check_conditions_and_generate_alerts now device_id reading alerts)
    alerts calls.

(** The alerts those calls append for one device, oldest first. *)
Definition appended (device_id : str) (calls : list (str * str * Reading))
  : list Alert.t :=
  flat_map (fun '(now, d, reading) =>
              if bool_decide (d = device_id) && negb (is_empty reading)
              then new_alerts now reading else [])
    calls.
End Vocabulary.

(** A reading with the defaults of the alert engine written into its
    absent fields, and with those of the irrigation recommendation. *)
Definition with_alert_defaults (r : Reading) : Reading :=
  mkReading (device_id r) (timestamp r) (location r)
    (Some (default 0%Q (temperature r)))
    (Some (default 50%Q (humidity r)))
    (rainfall r)
    (Some (default 50%Q (soil_moisture r)))
    (Some (default 0%Q (wind_speed r))).

Definition with_irrigation_defaults (r : Reading) : Reading :=
  mkReading (device_id r) (timestamp r) (location r)
    (Some (default 20%Q (temperature r)))
    (Some (default 50%Q (humidity r)))
    (Some (default 0%Q (rainfall r)))
    (Some (default 50%Q (soil_moisture r)))
    (wind_speed r).

(** A timestamp inside the inclusive range of a history query. *)
Definition in_range (from_date to_date : option str) (r : Reading) : bool :=
  (negb (given from_date) || str_leb (default [] from_date) (get_timestamp r))
  && (negb (given to_date) || str_leb (get_timestamp r) (default [] to_date)).

(** The time elapsed since a timestamp, a naive one read as UTC. *)
Definition age (now : Z) (t : datetime) : Z :=
  now - (wall t - default 0 (tzinfo t)).

(** The 200 body of the irrigation handler for a cached reading. *)
Definition recommendation_for (device crop now : str) (r : Reading)
  : Irrigation :=
  let soil := default 50%Q (soil_moisture r) in
  let temp := default 20%Q (temperature r) in
  let rain := default 0%Q (rainfall r) in
  let hum := default 50%Q (humidity r) in
  mkIrrigation device crop (mkConditions soil temp rain hum)
    (irrigation_rule soil temp rain).1.2
    (irrigation_rule soil temp rain).1.1
    (round2 (irrigation_rule soil temp rain).2) now.


(** ** Sample data *)
Module Examples.
Import Sample.

Definition dev : str := lit "agriweather-device-001".
Definition noon : str := lit "2025-01-15T12:00:00+00:00".
Definition nl : str := [10%N].

(** The UTC instant of a timestamp the sample runtime parses. *)
Definition clock (s : string) : Z :=
  match isoformat (lit s) with
  | Some t => wall t - default 0 (tzinfo t)
  | None => 0
  end.

Definition line_at (ts : string) : str :=
  json_object [member_text "timestamp" ts].

Definition blob_at (path : string) (modified : Z) (text : str) : Blob :=
  mkBlob (dev ++ lit path) modified (Data (Bytes (bytes_of text))).

(** Two readings, with a blank line between them. *)
Definition two_lines : str :=
  json_object [member_text "timestamp" "2025-01-15T10:00:00+00:00";
               member_number "temperature" "21"]
  ++ nl ++ lit "  " ++ nl ++ line_at "2025-01-15T10:15:00+00:00" ++ nl.

(** One valid line, then a line cut off in the middle. *)
Definition torn : str :=
  line_at "2025-01-15T10:00:00+00:00" ++ nl
  ++ lit "{" ++ dq ++ lit "timestamp".

(** A shard whose last line is older than its first. *)
Definition unordered : list Blob :=
  [blob_at "/0/2025/01/15/10/00" 100
     (line_at "2025-01-15T10:15:00+00:00" ++ nl
      ++ line_at "2025-01-15T10:00:00+00:00")].

(** A shard in the layout the simulator writes. *)
Definition january : list Blob :=
  [blob_at "/0/2025/01/15/10/00" 100 (line_at "2025-01-15T10:00:00+00:00")].

(** A shard that does not parse. *)
Definition garbled : list Blob :=
  [blob_at "/0/2025/01/15/10/00" 100 (lit "not json")].

(** Two shards; the second reading carries no rainfall. *)
Definition two_shards : list Blob :=
  [blob_at "/0/2025/01/15/10/00" 100
     (json_object [member_text "timestamp" "2025-01-15T10:00:00+00:00";
                   member_number "temperature" "21";
                   member_number "rainfall" "3"]);
   blob_at "/0/2025/01/15/11/00" 200
     (json_object [member_text "timestamp" "2025-01-15T11:00:00+00:00";
                   member_number "temperature" "23"])].

Definition with_temperature (t : Q) : Reading :=
  mkReading None None None (Some t) None None None None.

(** Soil moisture 25, temperature 20, rainfall 0. *)
Definition dry : Reading :=
  mkReading None None None (Some 20%Q) None (Some 0%Q) (Some 25%Q) None.

(** Frost, dry soil, high wind and dry air at once: four alerts. *)
Definition stormy : Reading :=
  mkReading None None None (Some (-5)%Q) (Some 10%Q) None (Some 10%Q)
    (Some 60%Q).

Definition cached (r : Reading) : State := mkState {[dev := r]} ∅.
Definition fresh : State := mkState ∅ ∅.

Definition registry : list (str * Device) :=
  [(dev, mkDevice (lit "Field A Sensor") (50%Q, 20%Q)
           (lit "2025-01-01T00:00:00+00:00") (lit "online"))].
End Examples.

(** ** Device registry *)

(** The JSON body of a registration request: the keys it may carry. *)
Record Registration := mkRegistration {
  reg_device_id : option str;
  reg_name : option str;
  reg_location : option (Q * Q)
}.

(** [devices_registry[device_id] = device_info]: a known key keeps its
    place and gets the new value, a new key goes to the end. *)
Fixpoint registry_set (devices_registry : list (str * Device))
    (device_id : str) (device_info : Device) : list (str * Device) :=
  match devices_registry with
  | [] => [(device_id, device_info)]
  | (k, d) :: rest =>
      if bool_decide (k = device_id) then (device_id, device_info) :: rest
      else (k, d) :: registry_set rest device_id device_info
  end.

(** [register_device]: [data] is [request.get_json()], [None] when the
    request has no JSON body; the success response has status 201. *)
Definition register_device (now : str) (data : option Registration)
    (devices_registry : list (str * Device))
  : list (str * Device) * Response (str * Device) :=
  match data with
  | None => (devices_registry, Err 400 (lit "device_id is required"))
  | Some data =>
      match reg_device_id data with
      | None => (devices_registry, Err 400 (lit "device_id is required"))
      | Some device_id =>
          let device_info :=
            mkDevice (default (lit "Device " ++ device_id) (reg_name data))
              (default (50%Q, 20%Q) (reg_location data))
              now (lit "online") in
          (registry_set devices_registry device_id device_info,
           Ok (device_id, device_info))
      end
  end.

(** [list_devices]: the records in registry order, and their number. *)
Definition list_devices (devices_registry : list (str * Device))
  : list (str * Device) * nat :=
  (devices_registry, length devices_registry).

(** The body of [get_device]: the record, and the key [last_reading] when
    the device is in the cache (its value is null when the cached reading
    has no timestamp). *)
Record DeviceInfo := mkDeviceInfo {
  info_device_id : str;
  info_device : Device;
  last_reading : option (option str)
}.

Definition get_device (devices_registry : list (str * Device))
    (device_id : str) (st : State) : Response DeviceInfo :=
  match registry_get devices_registry device_id with
  | None => Err 404 (lit "Device not found")
  | Some device =>
      Ok (mkDeviceInfo device_id device
            (timestamp <$> latest_readings st !! device_id))
  end.

(** ** Alert queries *)

(** The string an alert carries under ["severity"]. *)
Definition severity_name (s : Severity) : str :=
  match s with
  | critical => lit "critical"
  | warning => lit "warning"
  | info => lit "info"
  end.

Definition has_severity (s : Severity) (a : Alert.t) : bool :=
  bool_decide (severity_name (Alert.severity a) = severity_name s).

Record DeviceAlerts := mkDeviceAlerts {
  da_device_id : str;
  da_alerts : list Alert.t;
  da_count : nat;
  has_critical : bool;
  has_warnings : bool
}.

Definition get_device_alerts (devices_registry : list (str * Device))
    (device_id : str) (severity : option str) (limit : Z) (st : State)
  : Response DeviceAlerts :=
  match registry_get devices_registry device_id with
  | None => Err 404 (lit "Device not found")
  | Some _ =>
      let device_alerts := default [] (alerts st !! device_id) in
      let device_alerts :=
        if given severity then
          List.filter
            (fun a =>
               bool_decide
                 (severity_name (Alert.severity a) = default [] severity))
            device_alerts
        else device_alerts in
      let device_alerts := slice_from device_alerts (- limit) in
      Ok (mkDeviceAlerts device_id device_alerts (length device_alerts)
            (existsb (has_severity critical) device_alerts)
            (existsb (has_severity warning) device_alerts))
  end.

(** A series of registration requests, each with its clock reading. *)
Definition register_all (requests : list (str * option Registration))
    (devices_registry : list (str * Device)) : list (str * Device) :=
  foldl (fun reg '(now, data) => (register_device now data reg).1)
    devices_registry requests.

(** Every stored alert history has at most 50 entries. *)
Definition histories_bounded (st : State) : Prop :=
  forall d, (length (default [] (alerts st !! d)) <= 50)%nat.

(** ** Vocabulary of the further statements *)

Section PollerVocabulary.
Context `{PyRuntime}.

(** The reading a poller tick would store for a device: the last of the
    gathered readings sorted by timestamp. *)
Definition newest (container : list Blob) (device_id : str)
  : option Reading :=
  last (sort_by get_timestamp (gathered container device_id)).

(** The test of the poller fails: the cache holds a non-empty timestamp
    that is not less than the newest gathered one. *)
Definition up_to_date (container : list Blob) (st : State)
    (device_id : str) : Prop :=
  match newest container device_id with
  | None => True
  | Some latest =>
      str_ltb (cached_timestamp st device_id) (get_timestamp latest)
      || negb (truthy (cached_timestamp st device_id)) = false
  end.

(** A number of ticks on one device, each with its clock reading. *)
Definition poll_device_times (container : list Blob) (device_id : str)
    (clock : list str) (st : State) : State :=
  foldl (fun st now => poll_device container now device_id st) st clock.
End PollerVocabulary.

(** The blobs whose download succeeds. *)
Definition downloadable (container : list Blob) : list Blob :=
  List.filter (fun b => match content b with Data _ => true | Raises _ => false end)
    container.

(** The number of hundredths [round(x, 2)] rounds to. *)
Definition round_hundredths (x : Q) : Z :=
  let n := Qnum x * 100 in
  let d := Zpos (Qden x) in
  let q := n / d in
  let r := n mod d in
  match (2 * r) ?= d with
  | Lt => q
  | Gt => q + 1
  | Eq => if Z.odd q then q + 1 else q
  end.

(** The container without the blobs listed for a device. *)
Definition without_device (device_id : str) (container : list Blob)
  : list Blob :=
  List.filter (fun b => negb (startswith (device_id ++ lit "/") (name b)))
    container.

(** An identifier without a slash. *)
Definition slash_free (device_id : str) : Prop := 47%N ∉ device_id.

(** ** The device simulator: upload of a reading

    [WeatherDeviceSimulator.upload_to_blob_storage] of
    [device_simulator.py]. [json_dumps] is [json.dumps] and [strftime] is
    [datetime.strftime], both of the Python runtime. *)

(** ['\n'.join(lines)] *)
Fixpoint join_lines (lines : list str) : str :=
  match lines with
  | [] => []
  | [line] => line
  | line :: rest => line ++ 10%N :: join_lines rest
  end.

(** [blob_client.exists()] and the download: the blob of that name. *)
Fixpoint find_blob (container : list Blob) (blob_name : str)
  : option Blob :=
  match container with
  | [] => None
  | b :: rest =>
      if bool_decide (name b = blob_name) then Some b
      else find_blob rest blob_name
  end.

Section Simulator.
Context `{PyRuntime}.
Variable json_dumps : Reading -> str.
Variable strftime : str -> datetime -> str.

(** The loop that reads the existing lines: the bare [except: pass] around
    it keeps what was appended before a line fails. *)
Fixpoint read_existing (lines : list str) (existing_data : list Reading)
  : list Reading :=
  match lines with
  | [] => existing_data
  | line :: rest =>
      if truthy (strip line) then
        match json_loads line with
        | Some r => read_existing rest (existing_data ++ [r])
        | None => existing_data
        end
      else read_existing rest existing_data
  end.

(** [existing_data] after the inner [try]: nothing when the blob does not
    exist, its download fails or its bytes do not decode. *)
Definition existing_readings (blob : option Blob) : list Reading :=
  match blob with
  | None => []
  | Some b =>
      match content b with
      | Raises _ => []
      | Data blob_content =>
          match content_text blob_content with
          | None => []
          | Some text => read_existing (split 10 (strip text)) []
          end
      end
  end.

(** [f"{device_id}/0/{ts.strftime('%Y/%m/%d/%H')}/{ts.strftime('%M')}"];
    [None] when the reading has no timestamp or it does not parse. *)
Definition simulator_blob_name (device_id : str) (data : Reading)
  : option str :=
  s ← timestamp data;
  t ← fromisoformat (replace 90 (lit "+00:00") s);
  Some (device_id ++ lit "/0/" ++ strftime (lit "%Y/%m/%d/%H") t
        ++ lit "/" ++ strftime (lit "%M") t).

(** The upload: the name and the text handed to
    [upload_blob(content, overwrite=True)], [None] when the function
    raises. *)
Definition upload_to_blob_storage (device_id : str) (container : list Blob)
    (data : Reading) : option (str * str) :=
  blob_name ← simulator_blob_name device_id data;
  let existing_data := existing_readings (find_blob container blob_name) in
  let existing_data := existing_data ++ [data] in
  Some (blob_name, join_lines (json_dumps <$> existing_data)).

(** A reading [json.dumps] writes as one line holding a JSON object that
    [json.loads] reads back. *)
Definition dumps_one_line (r : Reading) : Prop :=
  json_loads (json_dumps r) = Some r
  /\ exists body, json_dumps r = 123%N :: body ++ [125%N] /\ 10%N ∉ body.
End Simulator.

(** ** The device simulator: generation of a reading

    [WeatherDeviceSimulator.generate_sensor_data] of [device_simulator.py].
    The values the random generator returns are inputs. *)





(** ** Sample data of the further statements *)
Module Fixtures.
Import Sample Examples.

Definition dev2 : str := lit "agriweather-device-002".

(** A registration request that carries only the identifier, and the
    record it registers at [noon]. *)
Definition request2 : option Registration :=
  Some (mkRegistration (Some dev2) None None).

Definition device2 : Device :=
  mkDevice (lit "Device agriweather-device-002") (50%Q, 20%Q) noon
    (lit "online").

(** A later series of requests: one without a body, one that registers
    the first device again. *)
Definition later_requests : list (str * option Registration) :=
  [(noon, None);
   (noon, Some (mkRegistration (Some dev) (Some (lit "Field A")) None))].

(** The state after the alert engine ran once on the stormy reading. *)
Definition alerted : State :=
  mkState ∅ (check_conditions_and_generate_alerts noon dev stormy ∅).

(** A shard whose only reading carries a temperature and no timestamp. *)
Definition undated : list Blob :=
  [blob_at "/0/2025/01/15/10/00" 100
     (json_object [member_number "temperature" "-5"])].

(** A container with a blob whose download fails. *)
Definition failing : Blob :=
  mkBlob (dev ++ lit "/0/2025/01/15/09/00") 50 (Raises (lit "timeout")).

Definition broken : list Blob := failing :: january.

(** Blobs of two devices. *)
Definition shared : list Blob :=
  mkBlob (dev2 ++ lit "/0/2025/01/15/10/00") 100
    (Data (Bytes (bytes_of (line_at "2025-01-15T10:30:00+00:00"))))
  :: january.

(** The blob with the torn shard. *)
Definition torn_blob : Blob := blob_at "/0/2025/01/15/10/00" 100 torn.

(** The body of a response, [dflt] for an error. *)
Definition body_or {A} (dflt : A) (r : Response A) : A :=
  match r with Ok body => body | Err _ _ => dflt end.

Definition no_alerts : DeviceAlerts := mkDeviceAlerts [] [] 0 false false.


(** [json.dumps] on the readings of the samples, which carry a timestamp
    and nothing else. *)
Definition dumps (r : Reading) : str :=
  match timestamp r with
  | Some ts =>
      lit "{" ++ dq ++ lit "timestamp" ++ dq ++ lit ": " ++ dq ++ ts ++ dq
      ++ lit "}"
  | None => lit "{}"
  end.

(** The date of a number of days since 1970-01-01: year, month, day. *)
Definition civil_from_days (z : Z) : Z * Z * Z :=
  let z := z + 719468 in
  let era := z / 146097 in
  let doe := z - era * 146097 in
  let yoe := (doe - doe / 1460 + doe / 36524 - doe / 146096) / 365 in
  let doy := doe - (365 * yoe + yoe / 4 - yoe / 100) in
  let mp := (5 * doy + 2) / 153 in
  let d := doy - (153 * mp + 2) / 5 + 1 in
  let m := if mp <? 10 then mp + 3 else mp - 9 in
  (if m <=? 2 then yoe + era * 400 + 1 else yoe + era * 400, m, d).

Definition two_digits (n : Z) : str :=
  [Z.to_N (48 + n / 10); Z.to_N (48 + n mod 10)].

(** The directives [%Y], [%m], [%d], [%H] and [%M] on the wall clock. *)
Definition directive (c : N) (t : datetime) : str :=
  let secs := wall t / 1000000 in
  let '(y, m, d) := civil_from_days (secs / 86400) in
  if (c =? 89)%N then two_digits (y / 100) ++ two_digits (y mod 100)
  else if (c =? 109)%N then two_digits m
  else if (c =? 100)%N then two_digits d
  else if (c =? 72)%N then two_digits (secs mod 86400 / 3600)
  else if (c =? 77)%N then two_digits (secs mod 3600 / 60)
  else [37%N; c].

(** [t.strftime(fmt)] for these directives. *)
Fixpoint format_time (fmt : str) (t : datetime) : str :=
  match fmt with
  | [] => []
  | c :: rest =>
      if (c =? 37)%N then
        match rest with
        | d :: rest' => directive d t ++ format_time rest' t
        | [] => [c]
        end
      else c :: format_time rest t
  end.


End Fixtures.

(** * Properties *)

(** ** The order on strings *)

Lemma str_compare_refl a : str_compare a a = Eq.
Proof.
  induction a as [|x a IH]; simpl; [done|].
  by rewrite N.compare_refl.
Qed.

Lemma str_compare_antisym a b : str_compare b a = CompOpp (str_compare a b).
Proof.
  revert b; induction a as [|x a IH]; intros [|y b]; simpl; try done.
  rewrite (N.compare_antisym x y).
  destruct (x ?= y)%N; simpl; auto.
Qed.

Lemma str_compare_eq a b : str_compare a b = Eq -> a = b.
Proof.
  revert b; induction a as [|x a IH]; intros [|y b]; simpl; try done.
  destruct (x ?= y)%N eqn:E; try done.
  apply N.compare_eq in E. intros E'. f_equal; auto.
Qed.

Lemma str_compare_lt_trans a b c :
  str_compare a b = Lt -> str_compare b c = Lt -> str_compare a c = Lt.
Proof.
  revert b c; induction a as [|x a IH]; intros [|y b] [|z c]; simpl;
    try done.
  destruct (x ?= y)%N eqn:Exy; try done;
    destruct (y ?= z)%N eqn:Eyz; try done.
  - apply N.compare_eq in Exy, Eyz. subst. rewrite N.compare_refl. eauto.
  - apply N.compare_eq in Exy. subst. by rewrite Eyz.
  - apply N.compare_eq in Eyz. subst. by rewrite Exy.
  - intros _ _. rewrite N.compare_lt_iff in Exy, Eyz.
    pose proof (N.lt_trans _ _ _ Exy Eyz) as Hxz.
    apply N.compare_lt_iff in Hxz. by rewrite Hxz.
Qed.

Lemma str_le_refl a : str_le a a.
Proof. unfold str_le, str_leb, str_ltb. by rewrite str_compare_refl. Qed.

Lemma str_le_nil a : str_le [] a.
Proof. unfold str_le, str_leb, str_ltb. by destruct a. Qed.

Lemma str_lt_le a b : str_lt a b -> str_le a b.
Proof.
  unfold str_lt, str_le, str_leb, str_ltb.
  rewrite (str_compare_antisym a b). by destruct (str_compare a b).
Qed.

Lemma str_le_total a b : str_le a b \/ str_le b a.
Proof.
  unfold str_le, str_leb, str_ltb.
  rewrite (str_compare_antisym a b). destruct (str_compare a b); auto.
Qed.

Lemma str_not_lt_le a b : str_ltb a b = false -> str_le b a.
Proof. unfold str_le, str_leb. by intros ->. Qed.

Lemma str_le_trans a b c : str_le a b -> str_le b c -> str_le a c.
Proof.
  unfold str_le, str_leb, str_ltb. intros Hab Hbc.
  destruct (str_compare c a) eqn:Eca; try done.
  destruct (str_compare b a) eqn:Eba; try done.
  - apply str_compare_eq in Eba. subst. by rewrite Eca in Hbc.
  - rewrite (str_compare_antisym a b) in Eba.
    destruct (str_compare a b) eqn:Eab; try done.
    pose proof (str_compare_lt_trans _ _ _ Eca Eab) as Hcb.
    by rewrite Hcb in Hbc.
Qed.

(** ** Slices *)

Lemma slice_from_neg {A} (l : list A) (n : nat) :
  (0 < n)%nat -> slice_from l (- Z.of_nat n) = drop (length l - n) l.
Proof.
  intros Hn. unfold slice_from.
  destruct (Z.ltb_spec (- Z.of_nat n) 0); [|lia].
  f_equal. lia.
Qed.

Lemma slice_from_neg_length {A} (l : list A) (n : nat) :
  (0 < n)%nat -> length (slice_from l (- Z.of_nat n)) = Nat.min n (length l).
Proof. intros Hn. rewrite slice_from_neg, length_drop; lia. Qed.

Lemma slice_from_neg_short {A} (l : list A) (n : nat) :
  (0 < n)%nat -> (length l <= n)%nat -> slice_from l (- Z.of_nat n) = l.
Proof.
  intros Hn Hl. rewrite slice_from_neg by done.
  by replace (length l - n)%nat with 0%nat by lia.
Qed.

(** Keeping the last [n] of a list that already is the last [n] of [l],
    extended by [k], keeps the last [n] of [l ++ k]. *)
Lemma slice_from_neg_app {A} (l k : list A) (n : nat) :
  (0 < n)%nat ->
  slice_from (slice_from l (- Z.of_nat n) ++ k) (- Z.of_nat n)
  = slice_from (l ++ k) (- Z.of_nat n).
Proof.
  intros Hn. rewrite !slice_from_neg by done.
  rewrite !drop_app, drop_drop, !length_app, !length_drop.
  f_equal; f_equal; lia.
Qed.

(** ** The reading parser *)

Section ParserProperties.
Context `{PyRuntime}.

(** The loop either fails, on the first non-blank line that does not
    decode, or extends [data] by the decoded non-blank lines. *)
Lemma parse_lines_inv lines data :
  match parse_lines lines data with
  | Some out =>
      exists rs, out = data ++ rs
        /\ Forall2 (fun line r => json_loads line = Some r)
             (List.filter (fun line => truthy (strip line)) lines) rs
  | None =>
      Exists (fun line => json_loads line = None)
        (List.filter (fun line => truthy (strip line)) lines)
  end.
Proof.
  revert data. induction lines as [|line rest IH]; intros data; simpl.
  - exists []. split; [by rewrite app_nil_r | constructor].
  - destruct (truthy (strip line)) eqn:Hblank.
    + destruct (json_loads line) as [r|] eqn:Hline.
      * specialize (IH (data ++ [r])).
        destruct (parse_lines rest (data ++ [r])) as [out|].
        -- destruct IH as (rs & -> & Hrs). exists (r :: rs).
           split; [by rewrite <- app_assoc | by constructor].
        -- by apply Exists_cons_tl.
      * by apply Exists_cons_hd.
    + apply IH.
Qed.

(** C6. A shard whose non-blank lines all decode yields one reading per
    non-blank line, in the order of the lines; a shard with a line that
    does not decode, or whose bytes do not decode, yields the empty
    list. The parser is a total function: no exception leaves it. *)
Theorem parse_blob_data_whole_shard blob_content :
  (forall text,
      content_text blob_content = Some text ->
      Forall (fun line => is_Some (json_loads line)) (nonblank_lines text) ->
      Forall2 (fun line r => json_loads line = Some r)
        (nonblank_lines text) (parse_blob_data blob_content))
  /\ (forall text,
      content_text blob_content = Some text ->
      Exists (fun line => json_loads line = None) (nonblank_lines text) ->
      parse_blob_data blob_content = [])
  /\ (content_text blob_content = None -> parse_blob_data blob_content = []).
Proof.
  unfold parse_blob_data, nonblank_lines. repeat split.
  - intros text -> Hall.
    pose proof (parse_lines_inv (split 10 (strip text)) []) as Hinv.
    destruct (parse_lines (split 10 (strip text)) []) as [out|].
    + by destruct Hinv as (rs & -> & Hrs).
    + exfalso. apply Exists_exists in Hinv as (line & Hin & Hnone).
      rewrite Forall_forall in Hall. specialize (Hall line Hin).
      rewrite Hnone in Hall. by destruct Hall.
  - intros text -> Hbad.
    pose proof (parse_lines_inv (split 10 (strip text)) []) as Hinv.
    destruct (parse_lines (split 10 (strip text)) []) as [out|]; [|done].
    destruct Hinv as (rs & -> & Hrs). exfalso.
    apply Exists_exists in Hbad as (line & Hin & Hnone).
    clear -Hrs Hin Hnone.
    induction Hrs as [|l r ls rs Hl _ IH]; [by inversion Hin|].
    inversion Hin; subst; [congruence | auto].
  - by intros ->.
Qed.
End ParserProperties.

(** ** Comparisons of numbers *)

Lemma Qltb_lt a b : Qltb a b = true <-> (a < b)%Q.
Proof.
  unfold Qltb. rewrite negb_true_iff.
  destruct (Qle_bool b a) eqn:E.
  - apply Qle_bool_iff in E. split; [done|].
    intros Hlt. exfalso. by apply (Qlt_not_le _ _ Hlt).
  - split; [intros _|done]. apply Qnot_le_lt. intros Hle.
    apply Qle_bool_iff in Hle. congruence.
Qed.

Lemma Qltb_ge a b : Qltb a b = false <-> (b <= a)%Q.
Proof.
  unfold Qltb. rewrite negb_false_iff. apply Qle_bool_iff.
Qed.

Lemma Qltb_proper a a' b b' :
  (a == a')%Q -> (b == b')%Q -> Qltb a b = Qltb a' b'.
Proof.
  intros Ha Hb. destruct (Qltb a' b') eqn:E.
  - apply Qltb_lt. apply Qltb_lt in E. by rewrite Ha, Hb.
  - apply Qltb_ge. apply Qltb_ge in E. by rewrite Ha, Hb.
Qed.

(** ** The alert engine *)

Section AlertProperties.
Context `{PyRuntime}.
#[local] Open Scope Q_scope.

Lemma alert_types_eq now r :
  alert_types now r =
    (if Qltb (default 0 (temperature r)) 0 then [frost]
     else if Qltb (default 0 (temperature r)) 5 then [low_temperature]
     else [])
    ++ (if Qltb 35 (default 0 (temperature r)) then [high_temperature]
        else [])
    ++ (if Qltb (default 50 (soil_moisture r)) 30 then [low_soil_moisture]
        else [])
    ++ (if Qltb 40 (default 0 (wind_speed r)) then [high_wind] else [])
    ++ (if Qltb (default 50 (humidity r)) 20 then [low_humidity] else []).
Proof.
  unfold alert_types, new_alerts. rewrite !fmap_app.
  repeat match goal with
         | |- context [if ?b then _ else _] => destruct b
         end; reflexivity.
Qed.

(** Membership in the list of alert types, condition by condition. *)
Ltac alert_cases :=
  rewrite alert_types_eq;
  repeat match goal with
         | Hf : ?f _ = Some _ |- _ => rewrite Hf; clear Hf
         end;
  simpl default;
  repeat match goal with
         | Hq : (?t == ?c)%Q |- context [Qltb ?t ?k] =>
             rewrite (Qltb_proper t c k k Hq (Qeq_refl k))
         | Hq : (?t == ?c)%Q |- context [Qltb ?k ?t] =>
             rewrite (Qltb_proper k k t c (Qeq_refl k) Hq)
         end;
  repeat match goal with
         | |- context [Qltb ?a ?b] =>
             let v := eval vm_compute in (Qltb a b) in
             change (Qltb a b) with v
         end;
  cbv iota;
  repeat match goal with
         | |- context [if ?b then _ else _] => destruct b
         end;
  compute_done.

(** C2 (as the code has it). Temperature exactly 0 raises the
    low-temperature alert and not the frost alert; temperature exactly 5,
    temperature exactly 35, soil moisture exactly 30, wind speed exactly
    40 and humidity exactly 20 raise no alert of their condition;
    temperature -0.01 raises frost and temperature 35.01 raises
    high-temperature. *)
Theorem alert_threshold_boundaries now r :
  (forall t, temperature r = Some t -> t == 0 ->
      low_temperature ∈ alert_types now r /\ frost ∉ alert_types now r)
  /\ (forall t, temperature r = Some t -> t == 5 ->
      (low_temperature ∉ alert_types now r) /\ frost ∉ alert_types now r)
  /\ (forall t, temperature r = Some t -> t == 35 ->
      high_temperature ∉ alert_types now r)
  /\ (forall s, soil_moisture r = Some s -> s == 30 ->
      low_soil_moisture ∉ alert_types now r)
  /\ (forall w, wind_speed r = Some w -> w == 40 ->
      high_wind ∉ alert_types now r)
  /\ (forall h, humidity r = Some h -> h == 20 ->
      low_humidity ∉ alert_types now r)
  /\ (forall t, temperature r = Some t -> t == (-1 # 100) ->
      frost ∈ alert_types now r /\ low_temperature ∉ alert_types now r)
  /\ (forall t, temperature r = Some t -> t == (3501 # 100) ->
      high_temperature ∈ alert_types now r).
Proof.
  repeat apply conj; intros x Hx Hq; alert_cases.
Qed.
End AlertProperties.

(** ** Defaults for absent fields *)

Section DefaultProperties.
Context `{PyRuntime}.
#[local] Open Scope Q_scope.

Lemma new_alerts_defaults now r :
  new_alerts now (with_alert_defaults r) = new_alerts now r.
Proof. reflexivity. Qed.

Lemma is_empty_with_alert_defaults r :
  is_empty (with_alert_defaults r) = false.
Proof.
  unfold is_empty, with_alert_defaults. simpl.
  by destruct (device_id r), (timestamp r), (location r).
Qed.

(** The response of the irrigation handler once the device is in the
    cache. *)
Lemma get_irrigation_recommendation_cached client now d crop st r :
  d <> [] ->
  latest_readings st !! d = Some r ->
  get_irrigation_recommendation client now (Some d) crop st
  = (st, Ok (recommendation_for d crop now r)).
Proof.
  intros Hd Hr. unfold get_irrigation_recommendation, recommendation_for.
  destruct d as [|c d]; [done|].
  cbn [given truthy negb default from_option id]. rewrite Hr.
  cbn [negb]. rewrite Hr. cbn [default from_option id].
  by destruct (irrigation_rule _ _ _) as [[needs text] amount].
Qed.

(** C3 (as the code has it). The alert engine reads an absent
    temperature as 0, soil moisture as 50, wind speed as 0 and humidity as
    50; the irrigation recommendation reads an absent soil moisture as 50,
    temperature as 20, rainfall as 0 and humidity as 50; the aggregation
    substitutes nothing and leaves a reading out of the statistics of a
    field it lacks. *)
Theorem defaults_per_operation :
  (forall now d r alerts,
      is_empty r = false ->
      check_conditions_and_generate_alerts now d (with_alert_defaults r)
        alerts
      = check_conditions_and_generate_alerts now d r alerts)
  /\ (forall client now d crop st r,
      d <> [] ->
      latest_readings st !! d = Some r ->
      (get_irrigation_recommendation client now (Some d) crop
         (mkState (<[d := with_irrigation_defaults r]> (latest_readings st))
            (alerts st))).2
      = (get_irrigation_recommendation client now (Some d) crop st).2)
  /\ (forall (field : Reading -> option Q) r rs,
      field r = None -> present field (r :: rs) = present field rs)
  /\ temperature (with_alert_defaults empty_reading) = Some 0
  /\ temperature (with_irrigation_defaults empty_reading) = Some 20.
Proof.
  repeat apply conj; try reflexivity.
  - intros now d r alerts Hr.
    unfold check_conditions_and_generate_alerts.
    by rewrite is_empty_with_alert_defaults, Hr, new_alerts_defaults.
  - intros client now d crop st r Hd Hr.
    rewrite (get_irrigation_recommendation_cached client now d crop st r)
      by done.
    rewrite (get_irrigation_recommendation_cached client now d crop _
               (with_irrigation_defaults r)) by (done || apply lookup_insert_eq).
    reflexivity.
  - intros field r rs Hf. unfold present. simpl. by rewrite Hf.
Qed.
End DefaultProperties.

(** ** The irrigation recommendation *)

Section IrrigationProperties.
Context `{PyRuntime}.
#[local] Open Scope Q_scope.

(** The blob [max] picks is one of the blobs, and none was modified
    later. *)
Lemma max_by_last_modified_spec blobs : forall b,
  max_by_last_modified b blobs ∈ b :: blobs
  /\ Forall (fun x =>
               (last_modified x
                <= last_modified (max_by_last_modified b blobs))%Z)
       (b :: blobs).
Proof.
  unfold max_by_last_modified.
  induction blobs as [|x blobs IH]; intros b; simpl.
  - split; [apply list_elem_of_here | by repeat constructor].
  - destruct (IH (if (last_modified b <? last_modified x)%Z then x else b))
      as [Hin Hle].
    inversion Hle as [|? ? Hhd Htl]; subst.
    destruct (Z.ltb_spec (last_modified b) (last_modified x)).
    + split; [by apply list_elem_of_further|].
      constructor; [lia|]. by constructor.
    + split.
      * apply elem_of_cons in Hin as [->|Hin];
          [apply list_elem_of_here | by do 2 apply list_elem_of_further].
      * constructor; [done|]. constructor; [lia|done].
Qed.

(** A successful fetch on a device that is not cached stores the last
    reading of a most recently modified blob of the device. *)
Lemma get_current_reading_stores client d st st' r :
  latest_readings st !! d = None ->
  get_current_reading client d st = (st', Ok r) ->
  st' = mkState (<[d := r]> (latest_readings st)) (alerts st)
  /\ exists container latest_blob blob_data,
      client = Some container
      /\ latest_blob ∈ list_blobs container (d ++ lit "/")
      /\ Forall (fun b => (last_modified b <= last_modified latest_blob)%Z)
           (list_blobs container (d ++ lit "/"))
      /\ content latest_blob = Data blob_data
      /\ last (parse_blob_data blob_data) = Some r.
Proof.
  intros Hmiss. unfold get_current_reading. rewrite Hmiss.
  destruct client as [container|]; [|done].
  destruct (list_blobs container (d ++ lit "/")) as [|b blobs] eqn:Hl;
    [done|].
  destruct (max_by_last_modified_spec blobs b) as [Hin Hle].
  destruct (content (max_by_last_modified b blobs)) as [blob_data|e] eqn:Hc;
    [|done].
  destruct (last (parse_blob_data blob_data)) as [latest|] eqn:Hlast;
    [|done].
  intros [= <- <-]. split; [done|].
  exists container, (max_by_last_modified b blobs), blob_data.
  rewrite Hl. by repeat split.
Qed.

(** A fetch on a device that is not cached either stores the reading it
    answers with, or fails and leaves the state as it was. *)
Lemma get_current_reading_miss client d st :
  latest_readings st !! d = None ->
  match get_current_reading client d st with
  | (st', Ok r) =>
      st' = mkState (<[d := r]> (latest_readings st)) (alerts st)
  | (st', Err _ _) => st' = st
  end.
Proof.
  intros Hmiss. unfold get_current_reading. rewrite Hmiss.
  destruct client as [container|]; [|done].
  destruct (list_blobs container (d ++ lit "/")) as [|b blobs]; [done|].
  destruct (content (max_by_last_modified b blobs)) as [blob_data|e];
    [|done].
  by destruct (last (parse_blob_data blob_data)).
Qed.

Lemma get_current_reading_hit client d st r :
  latest_readings st !! d = Some r ->
  get_current_reading client d st = (st, Ok r).
Proof. intros Hhit. unfold get_current_reading. by rewrite Hhit. Qed.

(** The handler answers from the cache as the fetch leaves it: 200 when
    the device is in it, 404 otherwise. *)
Lemma get_irrigation_recommendation_eq client now device crop st :
  device <> [] ->
  get_irrigation_recommendation client now (Some device) crop st =
    let st1 := (get_current_reading client device st).1 in
    match latest_readings st1 !! device with
    | Some r => (st1, Ok (recommendation_for device crop now r))
    | None => (st1, Err 404 (lit "Could not retrieve current data"))
    end.
Proof.
  intros Hne. cbv zeta.
  destruct (latest_readings st !! device) as [r|] eqn:Hr.
  - rewrite (get_current_reading_hit _ _ _ r Hr). simpl. rewrite Hr.
    by apply get_irrigation_recommendation_cached.
  - pose proof (get_current_reading_miss client device st Hr) as Hm.
    unfold get_irrigation_recommendation.
    destruct device as [|c device]; [done|].
    cbn [given truthy negb default from_option id]. rewrite Hr.
    destruct (get_current_reading client (c :: device) st)
      as [st1 [r|code e]]; subst st1; cbn [is_ok negb fst].
    + simpl latest_readings. rewrite lookup_insert_eq.
      cbn [default from_option id]. unfold recommendation_for.
      by destruct (irrigation_rule _ _ _) as [[needs text] amount].
    + by rewrite Hr.
Qed.

End IrrigationProperties.

(** ** The alert history *)

Section HistoryBound.
Context `{PyRuntime}.

(** One call of the engine keeps, for every device, the last 50 of the
    stored alerts extended by the alerts the call appends for it. *)
Lemma check_conditions_history now d' r alerts d :
  (length (default [] (alerts !! d)) <= 50)%nat ->
  default []
    (check_conditions_and_generate_alerts now d' r alerts !! d)
  = slice_from
      (default [] (alerts !! d) ++ appended d [(now, d', r)]) (-50).
Proof.
  intros Hlen. unfold check_conditions_and_generate_alerts, appended.
  simpl flat_map. rewrite app_nil_r.
  change (-50) with (- Z.of_nat 50).
  destruct (is_empty r); simpl.
  - rewrite andb_false_r, app_nil_r.
    by rewrite slice_from_neg_short by lia.
  - rewrite andb_true_r. case_bool_decide as Hd.
    + subst d'. by rewrite lookup_insert_eq.
    + rewrite lookup_insert_ne by done. rewrite app_nil_r.
      by rewrite slice_from_neg_short by lia.
Qed.

Lemma appended_cons d call calls :
  appended d (call :: calls) = appended d [call] ++ appended d calls.
Proof. unfold appended. simpl. by rewrite app_nil_r. Qed.

Lemma engine_calls_history calls : forall alerts d,
  (length (default [] (alerts !! d)) <= 50)%nat ->
  default [] (engine_calls calls alerts !! d)
  = slice_from (default [] (alerts !! d) ++ appended d calls) (-50).
Proof.
  change (-50) with (- Z.of_nat 50).
  induction calls as [|[[now d'] r] calls IH]; intros alerts d Hlen.
  - simpl. rewrite app_nil_r. by rewrite slice_from_neg_short by lia.
  - change (engine_calls (((now, d'), r) :: calls) alerts)
      with (engine_calls calls
              (check_conditions_and_generate_alerts now d' r alerts)).
    pose proof (check_conditions_history now d' r alerts d Hlen) as Hstep.
    change (-50) with (- Z.of_nat 50) in Hstep.
    rewrite IH.
    + rewrite Hstep. rewrite slice_from_neg_app by lia.
      by rewrite <- app_assoc, <- appended_cons.
    + rewrite Hstep, slice_from_neg_length by lia. lia.
Qed.

(** C5. Once the engine has appended more than 50 alerts for a device
    whose history started empty, the stored history of that device has
    exactly 50 entries: the 50 appended last, oldest first. *)
Theorem alert_history_keeps_last_50 calls alerts d :
  alerts !! d = None ->
  (50 < length (appended d calls))%nat ->
  let history := default [] (engine_calls calls alerts !! d) in
  length history = 50%nat
  /\ history = drop (length (appended d calls) - 50) (appended d calls)
  /\ is_Some (engine_calls calls alerts !! d).
Proof.
  intros Hnone Hlen. cbv zeta.
  pose proof (engine_calls_history calls alerts d) as Hh.
  rewrite Hnone in Hh. simpl in Hh. specialize (Hh ltac:(lia)).
  change (-50) with (- Z.of_nat 50) in Hh.
  rewrite slice_from_neg in Hh by lia.
  rewrite Hh. split; [rewrite length_drop; lia | split; [done|]].
  destruct (engine_calls calls alerts !! d) as [h|] eqn:E; [done|].
  simpl in Hh. symmetry in Hh. apply (f_equal length) in Hh.
  rewrite length_drop in Hh. simpl in Hh. lia.
Qed.
End HistoryBound.

(** ** Aggregation *)

Section AggregationProperties.
Context `{PyRuntime}.
#[local] Open Scope Q_scope.

(** The gathering loop of the aggregation: all readings of all blobs when
    every download succeeds. *)
Lemma aggregate_loop_data blobs : forall all_readings,
  Forall (fun b => exists blob_data, content b = Data blob_data) blobs ->
  aggregate_loop blobs all_readings = inr (all_readings ++ read_all blobs).
Proof.
  induction blobs as [|b blobs IH]; intros acc Hall; simpl.
  - by rewrite app_nil_r.
  - inversion Hall as [|? ? [blob_data Hb] Hrest]; subst.
    unfold read_all. simpl. rewrite Hb, IH by done.
    by rewrite <- app_assoc.
Qed.

Lemma present_none (field : Reading -> option Q) rs :
  Forall (fun r => field r = None) rs -> present field rs = [].
Proof.
  unfold present. induction 1 as [|r rs Hr _ IH]; simpl; [done|].
  by rewrite Hr.
Qed.

Lemma present_skip (field : Reading -> option Q) r rs1 rs2 :
  field r = None ->
  present field (rs1 ++ r :: rs2) = present field (rs1 ++ rs2).
Proof.
  intros Hr. unfold present. rewrite !omap_app. simpl. by rewrite Hr.
Qed.

(** C7 (as the code has it). With every download succeeding, the
    aggregation answers 404 "No data found" whenever no reading was
    gathered, whether the device has no shard or its shards yield no
    reading; otherwise it counts every gathered reading and computes the
    statistics of a field from the readings that carry it: a reading
    without the field is left out of them but counts for the fields it
    has, and a field no reading carries gets zeros. *)
Theorem aggregation_missing_fields container d p :
  d <> [] ->
  Forall (fun b => exists blob_data, content b = Data blob_data)
    (list_blobs container (d ++ lit "/")) ->
  (gathered container d = [] ->
     get_aggregated_data (Some container) (Some d) p
     = Err 404 (lit "No data found"))
  /\ (gathered container d <> [] ->
      exists a,
        get_aggregated_data (Some container) (Some d) p = Ok a
        /\ readings_count a = length (gathered container d)
        /\ a_temperature a
           = stats_of (present temperature (gathered container d))
        /\ a_humidity a = stats_of (present humidity (gathered container d))
        /\ total (a_rainfall a)
           = round2 (sum_Q (present rainfall (gathered container d)))
        /\ r_avg (a_rainfall a)
           = avg_or_zero (present rainfall (gathered container d)))
  /\ (forall (field : Reading -> option Q) r rs1 rs2,
         field r = None ->
         present field (rs1 ++ r :: rs2) = present field (rs1 ++ rs2)
         /\ length (rs1 ++ r :: rs2) = S (length (rs1 ++ rs2))
         /\ (forall (other : Reading -> option Q) v,
               other r = Some v ->
               present other (rs1 ++ r :: rs2)
               = present other rs1 ++ v :: present other rs2))
  /\ (forall (field : Reading -> option Q) rs,
         Forall (fun r => field r = None) rs ->
         stats_of (present field rs) = mkStats 0 0 0
         /\ avg_or_zero (present field rs) = 0
         /\ round2 (sum_Q (present field rs)) = 0).
Proof.
  intros Hd Hdata. unfold gathered, get_aggregated_data.
  destruct d as [|c d]; [done|].
  cbn [given truthy negb default from_option id].
  rewrite (aggregate_loop_data _ [] Hdata). simpl app.
  repeat apply conj.
  - by intros ->.
  - intros Hne.
    destruct (read_all _) as [|r rs]; [done|].
    eexists. split; [reflexivity|]. by repeat split.
  - intros field r rs1 rs2 Hr. split; [by apply present_skip|]. split.
    + rewrite !length_app. simpl. lia.
    + intros other v Hv. unfold present. rewrite omap_app. simpl.
      by rewrite Hv.
  - intros field rs Hrs. by rewrite (present_none field rs Hrs).
Qed.

(** C10. Two aggregation requests that differ only in the period get the
    same outcome: the same error, or the same device, temperature,
    humidity and rainfall statistics and the same count; each response
    carries the period it was asked with. *)
Theorem aggregation_ignores_period client d p1 p2 :
  match get_aggregated_data client d p1, get_aggregated_data client d p2 with
  | Ok a1, Ok a2 =>
      a_device_id a1 = a_device_id a2
      /\ a_temperature a1 = a_temperature a2
      /\ a_humidity a1 = a_humidity a2
      /\ a_rainfall a1 = a_rainfall a2
      /\ readings_count a1 = readings_count a2
      /\ period a1 = p1 /\ period a2 = p2
  | Err c1 e1, Err c2 e2 => c1 = c2 /\ e1 = e2
  | _, _ => False
  end.
Proof.
  unfold get_aggregated_data.
  destruct (negb (given d)); [done|].
  destruct client as [container|]; [|done].
  destruct (aggregate_loop _ []) as [e|[|r rs]]; [done|done|].
  by repeat split.
Qed.
End AggregationProperties.

(** ** Sorting by timestamp *)

Section SortProperties.
Context {A : Type} (key : A -> str).

Lemma insert_sorted_perm x l : insert_sorted key x l ≡ₚ x :: l.
Proof.
  induction l as [|y l IH]; simpl; [done|].
  destruct (str_leb (key x) (key y)); [done|].
  rewrite IH. apply Permutation_swap.
Qed.

Lemma sort_by_perm l : sort_by key l ≡ₚ l.
Proof.
  induction l as [|x l IH]; simpl; [done|].
  by rewrite insert_sorted_perm, IH.
Qed.

Lemma insert_sorted_sorted x l :
  StronglySorted (key_le key) l -> StronglySorted (key_le key) (insert_sorted key x l).
Proof.
  induction 1 as [|y l Hl IH Hy]; simpl.
  - repeat constructor.
  - destruct (str_leb (key x) (key y)) eqn:E.
    + constructor; [by constructor|].
      constructor; [done|].
      eapply Forall_impl; [exact Hy|].
      intros z Hz. by apply (str_le_trans _ (key y)).
    + constructor; [done|].
      rewrite insert_sorted_perm. constructor; [|done].
      destruct (str_le_total (key x) (key y)) as [Hle|Hle]; [|done].
      unfold str_le in Hle. congruence.
Qed.

Lemma sort_by_sorted l : StronglySorted (key_le key) (sort_by key l).
Proof.
  induction l as [|x l IH]; simpl; [constructor|].
  by apply insert_sorted_sorted.
Qed.

(** The last element of the sorted list carries a greatest key. *)
Lemma sort_by_last_max l latest x :
  last (sort_by key l) = Some latest -> x ∈ l -> key_le key x latest.
Proof.
  intros Hlast Hx. apply last_Some in Hlast as [l' Hl'].
  pose proof (sort_by_sorted l) as Hs. rewrite Hl' in Hs.
  rewrite <- (sort_by_perm l), Hl' in Hx.
  apply elem_of_app in Hx as [Hx|Hx].
  - by apply (StronglySorted_app_1_elem_of _ _ _ _ _ Hs);
      [|apply list_elem_of_singleton].
  - apply list_elem_of_singleton in Hx as ->. apply str_le_refl.
Qed.

Lemma sort_by_nonempty l : l <> [] -> is_Some (last (sort_by key l)).
Proof.
  intros Hl. apply last_is_Some. intros Hnil. apply Hl.
  apply Permutation_nil_r. by rewrite <- Hnil, sort_by_perm.
Qed.
End SortProperties.

(** ** The latest-reading cache *)

Section CacheProperties.
Context `{PyRuntime}.

Lemma cached_timestamp_insert st d r alerts' d0 :
  cached_timestamp (mkState (<[d := r]> (latest_readings st)) alerts') d0
  = if bool_decide (d = d0) then get_timestamp r
    else cached_timestamp st d0.
Proof.
  unfold cached_timestamp. simpl. case_bool_decide as Hd.
  - subst. by rewrite lookup_insert_eq.
  - by rewrite lookup_insert_ne.
Qed.

(** A poll of one device never lowers a cached timestamp. *)
Lemma poll_device_monotone container now d st d0 :
  str_le (cached_timestamp st d0)
    (cached_timestamp (poll_device container now d st) d0).
Proof.
  unfold poll_device.
  destruct (list_blobs container (d ++ lit "/")) as [|b blobs];
    [apply str_le_refl|].
  destruct (read_all (b :: blobs)) as [|r rs]; [apply str_le_refl|].
  destruct (last (sort_by get_timestamp (r :: rs))) as [latest|];
    [|apply str_le_refl].
  fold (cached_timestamp st d).
  destruct (str_ltb (cached_timestamp st d) (get_timestamp latest)
            || negb (truthy (cached_timestamp st d))) eqn:Hnew;
    [|apply str_le_refl].
  rewrite cached_timestamp_insert. case_bool_decide as Hd;
    [subst d0|apply str_le_refl].
  apply orb_true_iff in Hnew as [Hlt|Hempty].
  - by apply str_lt_le.
  - destruct (cached_timestamp st d); [apply str_le_nil|done].
Qed.

(** After a poll of a device the cached timestamp bounds every reading
    gathered for it. *)
Lemma poll_device_max container now d st r :
  r ∈ gathered container d ->
  str_le (get_timestamp r)
    (cached_timestamp (poll_device container now d st) d).
Proof.
  unfold gathered, poll_device. intros Hr.
  destruct (list_blobs container (d ++ lit "/")) as [|b blobs];
    [by apply elem_of_nil in Hr|].
  destruct (read_all (b :: blobs)) as [|r0 rs] eqn:Hall;
    [by apply elem_of_nil in Hr|].
  destruct (sort_by_nonempty get_timestamp (r0 :: rs)) as [latest Hlast];
    [done|].
  rewrite Hlast. fold (cached_timestamp st d).
  pose proof (sort_by_last_max get_timestamp _ _ _ Hlast Hr) as Hmax.
  unfold key_le in Hmax.
  destruct (str_ltb (cached_timestamp st d) (get_timestamp latest)
            || negb (truthy (cached_timestamp st d))) eqn:Hnew.
  - rewrite cached_timestamp_insert. by rewrite bool_decide_eq_true_2.
  - apply orb_false_iff in Hnew as [Hlt _].
    apply (str_le_trans _ (get_timestamp latest)); [done|].
    by apply str_not_lt_le.
Qed.

Lemma poll_devices_monotone container now ds : forall st d0,
  str_le (cached_timestamp st d0)
    (cached_timestamp
       (foldl (fun st d => poll_device container now d st) st ds) d0).
Proof.
  induction ds as [|d ds IH]; intros st d0; simpl; [apply str_le_refl|].
  eapply str_le_trans; [|apply IH]. apply poll_device_monotone.
Qed.

Lemma poll_once_monotone client now registry st d0 :
  str_le (cached_timestamp st d0)
    (cached_timestamp (poll_once client now registry st) d0).
Proof.
  unfold poll_once. destruct client as [container|]; [|apply str_le_refl].
  apply poll_devices_monotone.
Qed.

(** After a tick the cached timestamp of a registered device bounds every
    reading the tick gathered for it. *)
Lemma poll_once_max container now registry st d r :
  d ∈ registry.*1 ->
  r ∈ gathered container d ->
  str_le (get_timestamp r)
    (cached_timestamp (poll_once (Some container) now registry st) d).
Proof.
  intros Hd Hr. unfold poll_once.
  apply list_elem_of_split in Hd as (ds1 & ds2 & ->).
  rewrite foldl_app. simpl.
  eapply str_le_trans; [by apply (poll_device_max container now d)|].
  apply poll_devices_monotone.
Qed.

(** A direct fetch writes the cache only for a device it does not hold,
    and then the last reading of the most recently modified blob. *)
Lemma get_current_reading_monotone client d st d0 :
  str_le (cached_timestamp st d0)
    (cached_timestamp (get_current_reading client d st).1 d0).
Proof.
  destruct (latest_readings st !! d) as [r|] eqn:Hr.
  - rewrite (get_current_reading_hit _ _ _ r Hr). apply str_le_refl.
  - pose proof (get_current_reading_miss client d st Hr) as Hm.
    destruct (get_current_reading client d st) as [st1 [r|code e]];
      subst st1; simpl fst; [|apply str_le_refl].
    rewrite cached_timestamp_insert. case_bool_decide as Hd;
      [subst d0|apply str_le_refl].
    unfold cached_timestamp. rewrite Hr. apply str_le_nil.
Qed.

Lemma get_irrigation_recommendation_monotone client now d crop st d0 :
  str_le (cached_timestamp st d0)
    (cached_timestamp
       (get_irrigation_recommendation client now d crop st).1 d0).
Proof.
  destruct d as [[|c device]|]; try apply str_le_refl.
  rewrite get_irrigation_recommendation_eq by done. cbv zeta.
  destruct (latest_readings _ !! (c :: device));
    apply get_current_reading_monotone.
Qed.

Lemma run_op_monotone op st d0 :
  str_le (cached_timestamp st d0) (cached_timestamp (run_op st op) d0).
Proof.
  destruct op; simpl.
  - apply poll_once_monotone.
  - apply get_current_reading_monotone.
  - apply get_irrigation_recommendation_monotone.
Qed.

Lemma run_monotone ops : forall st d0,
  str_le (cached_timestamp st d0) (cached_timestamp (run ops st) d0).
Proof.
  induction ops as [|op ops IH]; intros st d0; [apply str_le_refl|].
  eapply str_le_trans; [apply (run_op_monotone op)|]. apply IH.
Qed.

(** C1 (as the code has it). Over any sequence of cache-writing
    operations the cached timestamp of a device never decreases, so no
    reading replaces a cached reading with a greater timestamp; after a
    sequence that contains a poller tick, the cached timestamp of a
    registered device is at least the timestamp of every reading that
    tick gathered for it; a direct fetch leaves a cached device as it is,
    and for a device without entry it stores the last reading of a most
    recently modified blob. *)
Theorem cache_timestamp_monotone ops1 ops2 container now registry d r st :
  d ∈ registry.*1 ->
  r ∈ gathered container d ->
  let ops := ops1 ++ PollTick (Some container) now registry :: ops2 in
  str_le (cached_timestamp st d) (cached_timestamp (run ops st) d)
  /\ str_le (get_timestamp r) (cached_timestamp (run ops st) d)
  /\ (forall ops' st0 d0,
        str_le (cached_timestamp st0 d0)
          (cached_timestamp (run ops' st0) d0))
  /\ (forall client st0 d0 r0,
        latest_readings st0 !! d0 = Some r0 ->
        get_current_reading client d0 st0 = (st0, Ok r0))
  /\ (forall client st0 d0 st1 r1,
        latest_readings st0 !! d0 = None ->
        get_current_reading client d0 st0 = (st1, Ok r1) ->
        st1 = mkState (<[d0 := r1]> (latest_readings st0)) (alerts st0)
        /\ exists container latest_blob blob_data,
            client = Some container
            /\ latest_blob ∈ list_blobs container (d0 ++ lit "/")
            /\ Forall (fun b => last_modified b <= last_modified latest_blob)
                 (list_blobs container (d0 ++ lit "/"))
            /\ content latest_blob = Data blob_data
            /\ last (parse_blob_data blob_data) = Some r1).
Proof.
  intros Hd Hr ops. repeat apply conj.
  - apply run_monotone.
  - unfold ops, run. rewrite foldl_app. simpl.
    eapply str_le_trans; [by apply (poll_once_max container now registry)|].
    apply run_monotone.
  - intros. apply run_monotone.
  - intros. by apply get_current_reading_hit.
  - intros. by apply get_current_reading_stores.
Qed.
End CacheProperties.

(** ** Device status *)

Section StatusProperties.
Context `{PyRuntime}.

(** The subtraction in [get_device_status] compares wall clocks: the
    current time is given the time zone of the parsed timestamp. *)
Lemma time_diff_parsed now s t :
  fromisoformat (replace 90 (lit "+00:00") s) = Some t ->
  time_diff now (Some s) = Some (now - wall t).
Proof.
  intros Ht. unfold time_diff, datetime_sub. rewrite Ht. simpl.
  destruct (tzinfo t); f_equal; lia.
Qed.

Lemma time_diff_unparsed now s :
  fromisoformat (replace 90 (lit "+00:00") s) = None ->
  time_diff now (Some s) = None.
Proof. intros Ht. unfold time_diff. by rewrite Ht. Qed.

(** C9. For a registered device the status is [unknown] exactly when no
    reading is cached or the cached reading has no timestamp that parses;
    with a parsed UTC timestamp it is [online] exactly when less than one
    hour has passed since, and [offline] otherwise: 59 minutes give
    [online], 61 minutes give [offline]. In general the handler compares
    the UTC wall clock with the wall clock of the timestamp. *)
Theorem device_status_by_age registry now d st device :
  registry_get registry d = Some device ->
  exists body,
    get_device_status registry now d st = Ok body
    /\ (status body = unknown <-> last_seen_time st d = None)
    /\ (forall t,
          last_seen_time st d = Some t ->
          (status body = online <-> now - wall t < one_hour))
    /\ (forall t,
          last_seen_time st d = Some t ->
          default 0 (tzinfo t) = 0 ->
          (status body = online <-> age now t < one_hour)
          /\ (status body = offline <-> one_hour <= age now t)
          /\ (age now t = 59 * 60 * 1000000 -> status body = online)
          /\ (age now t = 61 * 60 * 1000000 -> status body = offline)).
Proof.
  intros Hreg. unfold get_device_status, last_seen_time. rewrite Hreg.
  destruct (latest_readings st !! d) as [r|]; cbn [mbind option_bind].
  2: { eexists. split; [reflexivity|]. simpl. by repeat split. }
  destruct (timestamp r) as [s|]; cbn [mbind option_bind].
  2: { eexists. split; [reflexivity|]. simpl. by repeat split. }
  destruct (fromisoformat (replace 90 (lit "+00:00") s)) as [t|] eqn:Ht.
  - rewrite (time_diff_parsed now s t Ht).
    eexists. split; [reflexivity|]. cbn [status]. split; [|split].
    + destruct (now - wall t <? one_hour); split; done.
    + intros t' [= <-]. unfold one_hour.
      destruct (Z.ltb_spec (now - wall t) (3600 * 1000000));
        split; intros; try done; lia.
    + intros t' [= <-] Hutc. unfold age. rewrite Hutc.
      replace (now - (wall t - 0)) with (now - wall t) by lia.
      unfold one_hour.
      destruct (Z.ltb_spec (now - wall t) (3600 * 1000000));
        repeat split; intros; try done; lia.
  - rewrite (time_diff_unparsed now s Ht).
    eexists. split; [reflexivity|]. cbn [status]. by repeat split.
Qed.
End StatusProperties.

(** ** History *)

Section HistoryProperties.
Context `{PyRuntime}.

Lemma filter_range_in_range from_date to_date rs :
  filter_range from_date to_date rs
  = List.filter (in_range from_date to_date) rs.
Proof.
  unfold filter_range, in_range, str_leb.
  destruct (given from_date), (given to_date); simpl; try done.
  induction rs as [|r rs IH]; simpl; [done|]. by rewrite <- IH.
Qed.

(** With every download succeeding, the gathering loop collects the
    readings in range of the listed blobs, in order. *)
Lemma history_loop_data from_date to_date blobs : forall all_readings,
  Forall (fun b => exists blob_data, content b = Data blob_data) blobs ->
  history_loop from_date to_date blobs all_readings
  = inr (all_readings
         ++ List.filter (in_range from_date to_date) (read_all blobs)).
Proof.
  induction blobs as [|b blobs IH]; intros acc Hall; simpl.
  - by rewrite app_nil_r.
  - inversion Hall as [|? ? [blob_data Hb] Hrest]; subst.
    unfold read_all. simpl. rewrite Hb, IH by done.
    by rewrite filter_range_in_range, List.filter_app, <- app_assoc.
Qed.

(** What [get_history] returns for a positive limit: of the readings in
    range found in the blobs listed under its prefix, the [limit] with the
    greatest timestamps (all of them when there are fewer), by ascending
    timestamp. The blobs are those under [history_prefix]. *)
Lemma get_history_window container d from_date to_date (n : nat) :
  (0 < n)%nat ->
  Forall (fun b => exists blob_data, content b = Data blob_data)
    (list_blobs container (history_prefix d from_date)) ->
  let found :=
    List.filter (in_range from_date to_date)
      (read_all (list_blobs container (history_prefix d from_date))) in
  exists h dropped,
    get_history (Some container) d from_date to_date (Z.of_nat n) = Ok h
    /\ dropped ++ readings h ≡ₚ found
    /\ length (readings h) = Nat.min n (length found)
    /\ count h = length (readings h)
    /\ StronglySorted (key_le get_timestamp) (readings h)
    /\ (forall x y, x ∈ dropped -> y ∈ readings h ->
          key_le get_timestamp x y).
Proof.
  intros Hn Hdata found. unfold get_history.
  rewrite (history_loop_data _ _ _ [] Hdata). simpl app. fold found.
  rewrite slice_from_neg by done.
  set (sorted := sort_by get_timestamp found).
  exists (mkHistory d (drop (length sorted - n) sorted)
            (length (drop (length sorted - n) sorted))),
    (take (length sorted - n) sorted).
  pose proof (sort_by_sorted get_timestamp found) as Hsorted.
  fold sorted in Hsorted.
  rewrite <- (take_drop (length sorted - n) sorted) in Hsorted.
  assert (length sorted = length found) as Hlen
      by (unfold sorted; by rewrite sort_by_perm).
  simpl. repeat apply conj; try done.
  - rewrite take_drop. apply sort_by_perm.
  - rewrite length_drop. lia.
  - by apply StronglySorted_app_1_r in Hsorted.
  - intros x y Hx Hy.
    by apply (StronglySorted_app_1_elem_of _ _ _ _ _ Hsorted).
Qed.
End HistoryProperties.

(** * The operations on sample data *)

Section OnSampleData.
Import Sample Examples.

(** C6 on two shards: one with two valid lines around a blank line, one
    with a valid line followed by a torn line. *)
Lemma parse_blob_data_whole_shard_witness :
  Forall2 (fun line r => json_loads line = Some r)
    (nonblank_lines two_lines) (parse_blob_data (Bytes (bytes_of two_lines)))
  /\ length (parse_blob_data (Bytes (bytes_of two_lines))) = 2%nat
  /\ parse_blob_data (Bytes (bytes_of torn)) = [].
Proof.
  destruct (parse_blob_data_whole_shard (Bytes (bytes_of two_lines)))
    as (Hall & _ & _).
  destruct (parse_blob_data_whole_shard (Bytes (bytes_of torn)))
    as (_ & Hbad & _).
  split; [|split].
  - apply Hall; [vm_compute; reflexivity|].
    apply (bool_decide_unpack _). vm_compute. exact I.
  - vm_compute. reflexivity.
  - apply (Hbad torn); [vm_compute; reflexivity|].
    apply Exists_exists. exists (lit "{" ++ dq ++ lit "timestamp").
    split; [|vm_compute; reflexivity].
    apply (bool_decide_unpack _). vm_compute. exact I.
Defined.

(** C1 on a fetch, a poller tick and another fetch. *)
Lemma cache_timestamp_monotone_witness :
  let ops := [CurrentReading (Some unordered) dev;
              PollTick (Some unordered) noon registry;
              CurrentReading (Some january) dev] in
  str_le (cached_timestamp fresh dev) (cached_timestamp (run ops fresh) dev)
  /\ str_le (lit "2025-01-15T10:15:00+00:00")
       (cached_timestamp (run ops fresh) dev).
Proof.
  destruct (cache_timestamp_monotone
              [CurrentReading (Some unordered) dev]
              [CurrentReading (Some january) dev]
              unordered noon registry dev
              (at_time "2025-01-15T10:15:00+00:00") fresh)
    as (Hmono & Hmax & _).
  - apply (bool_decide_unpack _). vm_compute. exact I.
  - assert (gathered unordered dev
            = [at_time "2025-01-15T10:15:00+00:00";
               at_time "2025-01-15T10:00:00+00:00"]) as ->
        by (vm_compute; reflexivity).
    apply list_elem_of_here.
  - split; [exact Hmono | exact Hmax].
Defined.

(** C1 fails as stated: a direct fetch of a shard whose last line is
    older than its first caches the older reading, so the cached
    timestamp is not the greatest timestamp the fetch read. *)
Lemma fetch_caches_older_reading :
  ~ (forall r,
        r ∈ gathered unordered dev ->
        str_le (get_timestamp r)
          (cached_timestamp
             (run [CurrentReading (Some unordered) dev] fresh) dev)).
Proof.
  intros Hmax.
  specialize (Hmax (at_time "2025-01-15T10:15:00+00:00")).
  assert (gathered unordered dev
          = [at_time "2025-01-15T10:15:00+00:00";
             at_time "2025-01-15T10:00:00+00:00"]) as Hg
      by (vm_compute; reflexivity).
  rewrite Hg in Hmax. specialize (Hmax (list_elem_of_here _ _)).
  vm_compute in Hmax. discriminate Hmax.
Qed.

(** C2 on a reading with temperature 0. *)
Lemma alert_threshold_boundaries_witness :
  low_temperature ∈ alert_types noon (with_temperature 0)
  /\ frost ∉ alert_types noon (with_temperature 0).
Proof.
  apply (proj1 (alert_threshold_boundaries noon (with_temperature 0)) 0%Q);
    reflexivity.
Defined.

(** C2 fails as stated: at temperature exactly 0 the frost alert is not
    raised, the low-temperature alert is. *)
Lemma frost_not_raised_at_zero :
  ~ (frost ∈ alert_types noon (with_temperature 0)
     /\ low_temperature ∉ alert_types noon (with_temperature 0)).
Proof. apply (bool_decide_unpack _). vm_compute. exact I. Qed.

(** C3 on a reading that carries only a timestamp. *)
Lemma defaults_per_operation_witness :
  check_conditions_and_generate_alerts noon dev
    (with_alert_defaults (at_time "2025-01-15T10:00:00+00:00")) ∅
  = check_conditions_and_generate_alerts noon dev
      (at_time "2025-01-15T10:00:00+00:00") ∅.
Proof.
  apply (proj1 defaults_per_operation). reflexivity.
Defined.

(** C3 fails as stated: for a reading without temperature the alert
    engine evaluates 0, the irrigation recommendation 20. *)
Lemma recommendation_reads_absent_temperature_as_20 :
  ~ (Alert.value <$> new_alerts noon (at_time "2025-01-15T10:00:00+00:00")
     = [0%Q]
     /\ exists body,
         (get_irrigation_recommendation None noon (Some dev) (lit "wheat")
            (cached (at_time "2025-01-15T10:00:00+00:00"))).2 = Ok body
         /\ (c_temperature (current_conditions body) == 0)%Q).
Proof.
  intros (_ & body & Hbody & Hzero).
  vm_compute in Hbody. injection Hbody as <-.
  vm_compute in Hzero. discriminate Hzero.
Qed.


(** C5 on thirteen evaluations of a reading that raises four alerts. *)
Lemma alert_history_keeps_last_50_witness :
  let calls := replicate 13 (noon, dev, stormy) in
  length (appended dev calls) = 52%nat
  /\ length (default [] (engine_calls calls ∅ !! dev)) = 50%nat.
Proof.
  intros calls. split; [vm_compute; reflexivity|].
  destruct (alert_history_keeps_last_50 calls ∅ dev) as (Hlen & _ & _);
    [reflexivity | vm_compute; lia | exact Hlen].
Defined.

(** C7 on two shards, the second reading without rainfall. *)
Lemma aggregation_missing_fields_witness :
  exists a,
    get_aggregated_data (Some two_shards) (Some dev) (lit "day") = Ok a
    /\ readings_count a = 2%nat
    /\ a_temperature a = mkStats 21 23 22
    /\ a_rainfall a = mkRainStats 3 3.
Proof.
  destruct (aggregation_missing_fields two_shards dev (lit "day"))
    as (_ & Hsome & _).
  - discriminate.
  - vm_compute. repeat constructor; eexists; reflexivity.
  - destruct Hsome as (a & Ha & Hcount & Htemp & _ & Htotal & Havg).
    + vm_compute. discriminate.
    + exists a. split; [exact Ha|].
      rewrite Hcount, Htemp. destruct (a_rainfall a) as [t v].
      cbn [total r_avg] in Htotal, Havg. subst t v.
      vm_compute. repeat split; reflexivity.
Defined.

(** C7 fails as stated: the 404 "No data found" outcome also answers a
    device whose only shard does not parse, exactly as it answers a
    device without shards. *)
Lemma no_data_although_shards_exist :
  ~ (forall container,
        get_aggregated_data (Some container) (Some dev) (lit "day")
        = Err 404 (lit "No data found") ->
        list_blobs container (dev ++ lit "/") = []).
Proof.
  intros Honly. specialize (Honly garbled).
  assert (list_blobs garbled (dev ++ lit "/") = garbled) as Hlisted
      by (vm_compute; reflexivity).
  rewrite Hlisted in Honly. discriminate Honly. vm_compute. reflexivity.
Qed.

(** C8 at a failing input: a reading of 15 January, stored where the
    simulator stores it, is in the range from 2025-01-01 to 2025-01-31 and
    is returned without a range, but a query with that range returns
    nothing; and a limit of 0 returns the reading instead of nothing. *)
Theorem get_history_misses_reading_in_range :
  let from_date := Some (lit "2025-01-01") in
  let to_date := Some (lit "2025-01-31") in
  let r := at_time "2025-01-15T10:00:00+00:00" in
  gathered january dev = [r]
  /\ in_range from_date to_date r = true
  /\ get_history (Some january) dev from_date to_date 20
     = Ok (mkHistory dev [] 0)
  /\ get_history (Some january) dev None None 20 = Ok (mkHistory dev [r] 1)
  /\ get_history (Some january) dev None None 0 = Ok (mkHistory dev [r] 1).
Proof. vm_compute. repeat split; reflexivity. Qed.

(** C9 on a reading 59 minutes old. *)
Lemma device_status_by_age_witness :
  exists body,
    get_device_status registry (clock "2025-01-15T10:59:00") dev
      (cached (at_time "2025-01-15T10:00:00+00:00")) = Ok body
    /\ status body = online.
Proof.
  destruct (device_status_by_age registry (clock "2025-01-15T10:59:00") dev
              (cached (at_time "2025-01-15T10:00:00+00:00"))
              (mkDevice (lit "Field A Sensor") (50%Q, 20%Q)
                 (lit "2025-01-01T00:00:00+00:00") (lit "online")))
    as (body & Hbody & _ & _ & Hage); [vm_compute; reflexivity|].
  exists body. split; [exact Hbody|].
  destruct (Hage (mkDatetime (clock "2025-01-15T10:00:00") (Some 0)))
    as (_ & _ & H59 & _);
    [vm_compute; reflexivity | reflexivity |].
  apply H59. vm_compute. reflexivity.
Defined.
End OnSampleData.

(** * Further properties *)

(** ** Device registry *)

Lemma registry_get_set reg id dev :
  registry_get (registry_set reg id dev) id = Some dev.
Proof.
  induction reg as [|[k d] reg IH]; simpl.
  - by rewrite bool_decide_eq_true_2.
  - case_bool_decide as Hk; simpl.
    + by rewrite bool_decide_eq_true_2.
    + by rewrite bool_decide_eq_false_2.
Qed.

Lemma registry_get_set_ne reg id dev id' :
  id' <> id ->
  registry_get (registry_set reg id dev) id' = registry_get reg id'.
Proof.
  intros Hne. induction reg as [|[k d] reg IH]; simpl.
  - by rewrite bool_decide_eq_false_2.
  - case_bool_decide as Hk; simpl.
    + subst k. by rewrite !bool_decide_eq_false_2.
    + by rewrite IH.
Qed.

Lemma registry_set_keys_known reg id dev :
  id ∈ reg.*1 -> (registry_set reg id dev).*1 = reg.*1.
Proof.
  induction reg as [|[k d] reg IH]; simpl; intros Hin.
  - by apply elem_of_nil in Hin.
  - case_bool_decide as Hk; simpl; [by subst|].
    f_equal. apply IH. apply elem_of_cons in Hin as [Heq|Hin]; [|done].
    by subst.
Qed.

Lemma registry_set_new reg id dev :
  id ∉ reg.*1 -> registry_set reg id dev = reg ++ [(id, dev)].
Proof.
  induction reg as [|[k d] reg IH]; simpl; intros Hnot; [done|].
  apply not_elem_of_cons in Hnot as [Hne Hnot].
  rewrite bool_decide_eq_false_2 by done. by rewrite IH.
Qed.

Lemma registry_get_Some reg id :
  is_Some (registry_get reg id) <-> id ∈ reg.*1.
Proof.
  induction reg as [|[k d] reg IH]; simpl.
  - split; [by intros [? ?] | by intros ?%elem_of_nil].
  - case_bool_decide as Hk.
    + subst. split; [intros _; apply list_elem_of_here | by eexists].
    + rewrite IH, elem_of_cons. simpl.
      split; [by right | intros [Heq|Hin]; [by subst | done]].
Qed.

(** X1. A successful registration is an upsert: the device can be looked
    up with exactly the record of the response, every other device keeps
    its record, a known identifier keeps its place (the number and order of
    devices do not change), and a new one goes to the end. *)
Theorem register_device_upsert now data reg reg' id dev :
  register_device now data reg = (reg', Ok (id, dev)) ->
  registry_get reg' id = Some dev
  /\ (forall id', id' <> id -> registry_get reg' id' = registry_get reg id')
  /\ (id ∈ reg.*1 -> reg'.*1 = reg.*1)
  /\ (id ∉ reg.*1 -> reg' = reg ++ [(id, dev)])
  /\ list_devices reg'
     = (reg', if bool_decide (id ∈ reg.*1) then length reg
              else S (length reg)).
Proof.
  unfold register_device.
  destruct data as [data|]; [|done].
  destruct (reg_device_id data) as [device_id|]; [|done].
  intros [= <- <- <-]. repeat apply conj.
  - apply registry_get_set.
  - intros. by apply registry_get_set_ne.
  - apply registry_set_keys_known.
  - apply registry_set_new.
  - unfold list_devices. f_equal. case_bool_decide as Hin.
    + rewrite <- (length_fmap fst), registry_set_keys_known by done.
      by rewrite length_fmap.
    + rewrite registry_set_new by done. rewrite length_app. simpl. lia.
Qed.

Lemma register_device_keys now data reg :
  (NoDup reg.*1 -> NoDup (register_device now data reg).1.*1)
  /\ (forall id, id ∈ reg.*1 -> id ∈ (register_device now data reg).1.*1)
  /\ (length reg <= length (register_device now data reg).1 <= S (length reg))%nat.
Proof.
  unfold register_device.
  destruct data as [data|]; [|simpl; by repeat split; try lia].
  destruct (reg_device_id data) as [device_id|];
    [|simpl; by repeat split; try lia].
  simpl. set (dev := mkDevice _ _ _ _).
  destruct (decide (device_id ∈ reg.*1)) as [Hin|Hnot].
  - rewrite <- (length_fmap fst (registry_set _ _ _)).
    rewrite registry_set_keys_known by done. rewrite length_fmap.
    repeat split; try done; lia.
  - rewrite registry_set_new by done. rewrite fmap_app, length_app. simpl.
    repeat split; try lia.
    + intros Hnd. apply NoDup_app. repeat split; [done| |apply NoDup_singleton].
      intros x Hx ->%list_elem_of_singleton. done.
    + intros id Hid. apply elem_of_app. by left.
Qed.

(** X2. Over any series of registration requests, valid or not, the
    identifiers in the registry stay pairwise distinct, no device ever
    leaves the registry, and the registry grows by at most one device per
    request. *)
Theorem registry_keeps_devices requests reg :
  NoDup reg.*1 ->
  NoDup (register_all requests reg).*1
  /\ (forall id, id ∈ reg.*1 -> id ∈ (register_all requests reg).*1)
  /\ (length reg <= length (register_all requests reg)
      <= length reg + length requests)%nat.
Proof.
  revert reg. unfold register_all.
  induction requests as [|[now data] requests IH]; intros reg Hnd; simpl.
  - repeat split; try done; lia.
  - destruct (register_device_keys now data reg) as (Hnd' & Hin' & Hlen').
    destruct (IH _ (Hnd' Hnd)) as (Hnd'' & Hin'' & Hlen'').
    repeat split; try done; try lia. intros id Hid. auto.
Qed.

(** X3. Once a registration for an identifier has succeeded, the device,
    status and alert queries for it answer 200 in every state, whatever is
    registered afterwards; right after the registration the device query
    returns the registered record, with the key [last_reading] exactly when
    the device is in the cache. *)
Theorem registered_device_is_found `{PyRuntime}
    now data reg reg' id dev requests clock severity limit st :
  register_device now data reg = (reg', Ok (id, dev)) ->
  let reg'' := register_all requests reg' in
  (exists body, get_device reg'' id st = Ok body
                /\ last_reading body = timestamp <$> latest_readings st !! id)
  /\ (exists body, get_device_status reg'' clock id st = Ok body)
  /\ (exists body, get_device_alerts reg'' id severity limit st = Ok body)
  /\ get_device reg' id st
     = Ok (mkDeviceInfo id dev (timestamp <$> latest_readings st !! id)).
Proof.
  intros Hreg reg''.
  assert (registry_get reg' id = Some dev) as Hget.
  { unfold register_device in Hreg.
    destruct data as [data|]; [|done].
    destruct (reg_device_id data) as [device_id|]; [|done].
    injection Hreg as <- <- <-. apply registry_get_set. }
  assert (is_Some (registry_get reg'' id)) as [dev'' Hget''].
  { apply registry_get_Some. unfold reg'', register_all.
    assert (id ∈ reg'.*1) as Hin by (apply registry_get_Some; by eexists).
    clear -Hin. revert reg' Hin.
    induction requests as [|[now data] requests IH]; intros reg Hin; simpl;
      [done|].
    apply IH. by apply register_device_keys. }
  unfold get_device, get_device_status, get_device_alerts.
  rewrite Hget'', Hget. repeat split; try by eexists.
  destruct (latest_readings st !! id); simpl; by eexists.
Qed.

(** ** Alert queries *)

Lemma slice_from_length_le {A} (l : list A) (i : Z) :
  (length (slice_from l i) <= length l)%nat.
Proof. unfold slice_from. destruct (i <? 0); rewrite length_drop; lia. Qed.

Lemma slice_from_suffix {A} (l : list A) (i : Z) :
  slice_from l i `suffix_of` l.
Proof. unfold slice_from. destruct (i <? 0); apply suffix_drop. Qed.

Lemma existsb_has_severity s (l : list Alert.t) :
  existsb (has_severity s) l = true
  <-> exists a, a ∈ l /\ Alert.severity a = s.
Proof.
  rewrite existsb_exists. unfold has_severity.
  split; intros (a & Hin & Hs); exists a.
  - apply list_elem_of_In in Hin. split; [done|].
    apply bool_decide_eq_true in Hs.
    by destruct (Alert.severity a), s.
  - apply list_elem_of_In in Hin. split; [done|].
    apply bool_decide_eq_true. by rewrite Hs.
Qed.

(** X4. For a registered device and a limit of at least 1 the alert query
    returns the last [limit] alerts (all when there are fewer) of the stored
    history restricted to the requested severity, in stored order; the
    count is their number; [has_critical] and [has_warnings] tell whether
    the returned alerts, not the stored history, contain such an alert. *)
Theorem get_device_alerts_window reg d dev severity (n : nat) st :
  registry_get reg d = Some dev ->
  (0 < n)%nat ->
  exists body,
    get_device_alerts reg d severity (Z.of_nat n) st = Ok body
    /\ let stored := default [] (alerts st !! d) in
       let wanted :=
         List.filter
           (fun a => negb (given severity)
                     || bool_decide (severity_name (Alert.severity a)
                                     = default [] severity))
           stored in
       da_alerts body = drop (length wanted - n) wanted
       /\ da_count body = Nat.min n (length wanted)
       /\ (has_critical body = true
           <-> exists a, a ∈ da_alerts body /\ Alert.severity a = critical)
       /\ (has_warnings body = true
           <-> exists a, a ∈ da_alerts body /\ Alert.severity a = warning)
       /\ (has_critical body = true ->
           exists a, a ∈ stored /\ Alert.severity a = critical).
Proof.
  intros Hreg Hn. unfold get_device_alerts. rewrite Hreg.
  eexists. split; [reflexivity|]. cbv zeta. simpl.
  set (stored := default [] (alerts st !! d)).
  assert ((if given severity
           then List.filter
                  (fun a => bool_decide (severity_name (Alert.severity a)
                                         = default [] severity)) stored
           else stored)
          = List.filter
              (fun a => negb (given severity)
                        || bool_decide (severity_name (Alert.severity a)
                                        = default [] severity)) stored)
    as ->.
  { destruct (given severity); simpl; [done|].
    induction stored as [|a l IH]; simpl; [done|]. by rewrite <- IH. }
  set (wanted := List.filter _ stored).
  rewrite slice_from_neg by done.
  split; [done|]. split; [rewrite length_drop; lia|].
  split; [apply existsb_has_severity|].
  split; [apply existsb_has_severity|].
  intros (a & Hin & Hs)%existsb_has_severity. exists a. split; [|done].
  apply (subseteq_drop _ _ a) in Hin. unfold wanted in Hin.
  rewrite list_elem_of_In in Hin. apply filter_In in Hin as [Hin _].
  by rewrite list_elem_of_In.
Qed.

(** The alert engine keeps every history within the bound. *)
Lemma check_conditions_bounded `{PyRuntime} now d r alerts0 d0 :
  (length (default [] (alerts0 !! d0)) <= 50)%nat ->
  (length (default []
             (check_conditions_and_generate_alerts now d r alerts0 !! d0))
   <= 50)%nat.
Proof.
  intros Hlen. rewrite check_conditions_history by done.
  change (-50) with (- Z.of_nat 50).
  rewrite slice_from_neg_length by lia. lia.
Qed.

Lemma poll_device_bounded `{PyRuntime} container now d st :
  histories_bounded st -> histories_bounded (poll_device container now d st).
Proof.
  intros Hb. unfold poll_device.
  repeat match goal with
         | |- context [match ?x with _ => _ end] => destruct x; try done
         end.
  intros d0. simpl. by apply check_conditions_bounded.
Qed.

Lemma run_op_bounded `{PyRuntime} op st :
  histories_bounded st -> histories_bounded (run_op st op).
Proof.
  intros Hb. destruct op as [client now reg|client d|client now d crop];
    simpl.
  - unfold poll_once. destruct client as [container|]; [|done].
    generalize (reg.*1). intros ds. revert st Hb.
    induction ds as [|d ds IH]; intros st Hb; simpl; [done|].
    apply IH. by apply poll_device_bounded.
  - destruct (latest_readings st !! d) as [r|] eqn:Hr.
    + by rewrite (get_current_reading_hit _ _ _ r Hr).
    + pose proof (get_current_reading_miss client d st Hr) as Hm.
      destruct (get_current_reading client d st) as [st1 [r|code e]];
        by subst st1.
  - destruct d as [[|c d]|]; try done.
    rewrite get_irrigation_recommendation_eq by done. cbv zeta.
    assert (histories_bounded (get_current_reading client (c :: d) st).1)
      as Hb'.
    { destruct (latest_readings st !! (c :: d)) as [r|] eqn:Hr.
      - by rewrite (get_current_reading_hit _ _ _ r Hr).
      - pose proof (get_current_reading_miss client (c :: d) st Hr) as Hm.
        destruct (get_current_reading client (c :: d) st)
          as [st1 [r|code e]]; by subst st1. }
    by destruct (latest_readings _ !! (c :: d)).
Qed.

Lemma run_bounded `{PyRuntime} ops : forall st,
  histories_bounded st -> histories_bounded (run ops st).
Proof.
  induction ops as [|op ops IH]; intros st Hst; [done|].
  apply IH. by apply run_op_bounded.
Qed.

(** X5. The bound of 50 alerts per device is an invariant of the process:
    it holds at start (no alerts) and after any sequence of poller ticks,
    current-reading requests and irrigation requests; so the alert query
    never returns more than 50 alerts, whatever the limit and the severity
    filter, also for limit 0 or a negative limit. *)
Theorem alert_history_bound_invariant `{PyRuntime}
    ops reg d severity limit body :
  get_device_alerts reg d severity limit (run ops (mkState ∅ ∅)) = Ok body ->
  histories_bounded (run ops (mkState ∅ ∅))
  /\ (da_count body <= 50)%nat
  /\ da_count body = length (da_alerts body).
Proof.
  assert (histories_bounded (run ops (mkState ∅ ∅))) as Hb.
  { apply run_bounded. intros d0. simpl. rewrite lookup_empty. simpl. lia. }
  unfold get_device_alerts.
  destruct (registry_get reg d); [|done]. intros [= <-]. simpl.
  split; [done|]. split; [|done].
  etransitivity; [apply slice_from_length_le|].
  specialize (Hb d).
  destruct (given severity); [|done].
  etransitivity; [|exact Hb].
  clear. induction (default [] (alerts _ !! d)) as [|a l IH]; simpl; [done|].
  destruct (bool_decide _); simpl; lia.
Qed.

(** ** The poller *)

Section PollerProperties.
Context `{PyRuntime}.

(** The body of the tick in terms of the newest gathered reading. *)
Lemma poll_device_newest container now d st :
  poll_device container now d st =
    match newest container d with
    | None => st
    | Some latest =>
        if str_ltb (cached_timestamp st d) (get_timestamp latest)
           || negb (truthy (cached_timestamp st d))
        then mkState (<[d := latest]> (latest_readings st))
               (check_conditions_and_generate_alerts now d latest (alerts st))
        else st
    end.
Proof.
  unfold poll_device, newest, gathered.
  destruct (list_blobs container (d ++ lit "/")) as [|b blobs]; [done|].
  destruct (read_all (b :: blobs)) as [|r rs]; [done|].
  by destruct (last (sort_by get_timestamp (r :: rs))).
Qed.

Lemma poll_device_up_to_date container now d st :
  up_to_date container st d -> poll_device container now d st = st.
Proof.
  unfold up_to_date. rewrite poll_device_newest.
  destruct (newest container d) as [latest|]; [|done]. by intros ->.
Qed.

(** A poll of one device leaves the entries of every other device. *)
Lemma poll_device_other container now d st d0 :
  d0 <> d ->
  latest_readings (poll_device container now d st) !! d0
  = latest_readings st !! d0
  /\ alerts (poll_device container now d st) !! d0 = alerts st !! d0.
Proof.
  intros Hne. rewrite poll_device_newest.
  destruct (newest container d) as [latest|]; [|done].
  destruct (_ || _); [|done]. simpl.
  rewrite lookup_insert_ne by done. split; [done|].
  unfold check_conditions_and_generate_alerts.
  destruct (is_empty latest); [done|]. by rewrite lookup_insert_ne.
Qed.

Lemma up_to_date_after_poll container now d st :
  (forall latest, newest container d = Some latest ->
                  get_timestamp latest <> []) ->
  up_to_date container (poll_device container now d st) d.
Proof.
  intros Hts. rewrite poll_device_newest. unfold up_to_date.
  destruct (newest container d) as [latest|] eqn:Hn; [|done].
  destruct (str_ltb (cached_timestamp st d) (get_timestamp latest)
            || negb (truthy (cached_timestamp st d))) eqn:Hnew; [|done].
  rewrite cached_timestamp_insert, bool_decide_eq_true_2 by done.
  unfold str_ltb. rewrite str_compare_refl. simpl.
  specialize (Hts latest eq_refl). by destruct (get_timestamp latest).
Qed.

Lemma up_to_date_preserved container now d' st d :
  up_to_date container st d ->
  up_to_date container (poll_device container now d' st) d.
Proof.
  intros Hup. destruct (decide (d = d')) as [->|Hne].
  - by rewrite poll_device_up_to_date.
  - unfold up_to_date, cached_timestamp in *.
    by rewrite (proj1 (poll_device_other container now d' st d Hne)).
Qed.

Lemma up_to_date_preserved_fold container now ds : forall st d,
  up_to_date container st d ->
  up_to_date container
    (foldl (fun st d => poll_device container now d st) st ds) d.
Proof.
  induction ds as [|d' ds IH]; intros st d Hup; simpl; [done|].
  apply IH. by apply up_to_date_preserved.
Qed.

Lemma up_to_date_after_fold container now ds : forall st,
  (forall d latest, d ∈ ds -> newest container d = Some latest ->
                    get_timestamp latest <> []) ->
  forall d, d ∈ ds ->
    up_to_date container
      (foldl (fun st d => poll_device container now d st) st ds) d.
Proof.
  induction ds as [|d' ds IH]; intros st Hts d Hd; simpl.
  - by apply elem_of_nil in Hd.
  - apply elem_of_cons in Hd as [->|Hd].
    + apply up_to_date_preserved_fold. apply up_to_date_after_poll.
      intros latest. apply Hts. apply list_elem_of_here.
    + apply IH; [|done]. intros d0 latest Hd0. apply Hts.
      by apply list_elem_of_further.
Qed.

Lemma poll_fold_up_to_date container now ds : forall st,
  (forall d, d ∈ ds -> up_to_date container st d) ->
  foldl (fun st d => poll_device container now d st) st ds = st.
Proof.
  induction ds as [|d ds IH]; intros st Hup; simpl; [done|].
  rewrite poll_device_up_to_date by (apply Hup, list_elem_of_here).
  apply IH. intros d0 Hd0. apply Hup. by apply list_elem_of_further.
Qed.

(** X6. A second tick over an unchanged container changes nothing, neither
    the cache nor the alert histories, provided the newest reading of every
    registered device carries a non-empty timestamp: the alerts of a
    reading are raised once, not once per tick. *)
Theorem poll_once_idempotent container now now' reg st :
  (forall d latest, d ∈ reg.*1 -> newest container d = Some latest ->
                    get_timestamp latest <> []) ->
  poll_once (Some container) now' reg (poll_once (Some container) now reg st)
  = poll_once (Some container) now reg st.
Proof.
  intros Hts. unfold poll_once. apply poll_fold_up_to_date.
  intros d Hd. by apply up_to_date_after_fold.
Qed.

(** X7. Without timestamps the test of the poller always passes: when the
    cache holds no timestamp for a device and none of its readings carries
    one, every tick stores the newest reading again and calls the alert
    engine on it again, so [n] ticks append its alerts [n] times. *)
Theorem poll_without_timestamps_repeats container d latest clock st :
  newest container d = Some latest ->
  get_timestamp latest = [] ->
  cached_timestamp st d = [] ->
  alerts (poll_device_times container d clock st)
  = engine_calls ((fun now => (now, d, latest)) <$> clock) (alerts st)
  /\ (clock <> [] ->
      latest_readings (poll_device_times container d clock st) !! d
      = Some latest).
Proof.
  intros Hn Hts. revert st. unfold poll_device_times, engine_calls.
  induction clock as [|now clock IH]; intros st Hc; simpl; [done|].
  assert (poll_device container now d st
          = mkState (<[d := latest]> (latest_readings st))
              (check_conditions_and_generate_alerts now d latest (alerts st)))
    as Hstep.
  { rewrite poll_device_newest, Hn, Hc. by rewrite Hts. }
  rewrite Hstep.
  destruct (IH (mkState (<[d := latest]> (latest_readings st))
                  (check_conditions_and_generate_alerts now d latest
                     (alerts st)))) as [Ha Hl].
  { rewrite cached_timestamp_insert. by rewrite bool_decide_eq_true_2. }
  split; [exact Ha|]. intros _.
  destruct clock as [|now2 clock]; [simpl; apply lookup_insert_eq|].
  by apply Hl.
Qed.

Lemma run_op_keeps_cached op st d :
  is_Some (latest_readings st !! d) ->
  is_Some (latest_readings (run_op st op) !! d).
Proof.
  assert (forall client d', is_Some (latest_readings st !! d) ->
            is_Some (latest_readings (get_current_reading client d' st).1
                       !! d)) as Hfetch.
  { intros client d' Hs.
    destruct (latest_readings st !! d') as [r|] eqn:Hr.
    - by rewrite (get_current_reading_hit _ _ _ r Hr).
    - pose proof (get_current_reading_miss client d' st Hr) as Hm.
      destruct (get_current_reading client d' st) as [st1 [r|code e]];
        subst st1; [|done].
      simpl. destruct (decide (d' = d)) as [->|Hne].
      + rewrite lookup_insert_eq. by eexists.
      + by rewrite lookup_insert_ne. }
  intros Hs. destruct op as [client now reg|client d'|client now d' crop];
    simpl.
  - unfold poll_once. destruct client as [container|]; [|done].
    clear Hfetch. revert st Hs. generalize (reg.*1). intros ds.
    induction ds as [|d' ds IH]; intros st Hs; simpl; [done|].
    apply IH. rewrite poll_device_newest.
    destruct (newest container d') as [latest|]; [|done].
    destruct (_ || _); [|done]. simpl.
    destruct (decide (d' = d)) as [->|Hne].
    + rewrite lookup_insert_eq. by eexists.
    + by rewrite lookup_insert_ne.
  - by apply Hfetch.
  - destruct d' as [[|c d']|]; try done.
    rewrite get_irrigation_recommendation_eq by done. cbv zeta.
    destruct (latest_readings _ !! (c :: d')); by apply Hfetch.
Qed.

(** X8. A tick changes the cache entry and the alert history only of
    registered devices: for every other device both stay as they are. *)
Theorem poll_once_frame client now reg st d :
  d ∉ reg.*1 ->
  latest_readings (poll_once client now reg st) !! d
  = latest_readings st !! d
  /\ alerts (poll_once client now reg st) !! d = alerts st !! d.
Proof.
  intros Hd. unfold poll_once. destruct client as [container|]; [|done].
  revert st Hd. generalize (reg.*1). intros ds.
  induction ds as [|d' ds IH]; intros st Hd; simpl; [done|].
  apply not_elem_of_cons in Hd as [Hne Hd].
  destruct (IH (poll_device container now d' st) Hd) as [-> ->].
  by apply poll_device_other.
Qed.

(** X13. No sequence of cache-writing operations (ticks, direct fetches,
    irrigation requests) removes a device from the cache: an entry, once
    written, is only ever replaced. *)
Theorem cache_entry_never_removed ops : forall st d,
  is_Some (latest_readings st !! d) ->
  is_Some (latest_readings (run ops st) !! d).
Proof.
  induction ops as [|op ops IH]; intros st d Hs; [done|].
  apply IH. by apply run_op_keeps_cached.
Qed.

Lemma read_all_downloadable blobs :
  read_all (downloadable blobs) = read_all blobs.
Proof.
  unfold read_all, downloadable.
  induction blobs as [|b blobs IH]; simpl; [done|].
  destruct (content b) eqn:Hb; simpl; [by rewrite Hb, IH | done].
Qed.

Lemma list_blobs_downloadable container prefix :
  list_blobs (downloadable container) prefix
  = downloadable (list_blobs container prefix).
Proof.
  unfold list_blobs, downloadable.
  induction container as [|b bs IH]; simpl; [done|].
  destruct (content b) eqn:Hb; destruct (startswith prefix (name b)) eqn:Hp;
    simpl; rewrite ?Hb, ?Hp, ?IH; done.
Qed.

Lemma aggregate_loop_raises blobs : forall acc b e,
  b ∈ blobs -> content b = Raises e ->
  exists e', aggregate_loop blobs acc = inl e'.
Proof.
  induction blobs as [|b0 blobs IH]; intros acc b e Hin Hb; simpl.
  - by apply elem_of_nil in Hin.
  - destruct (content b0) as [blob_data|e0] eqn:Hb0; [|by eexists].
    apply elem_of_cons in Hin as [->|Hin]; [congruence|]. by eapply IH.
Qed.

Lemma history_loop_raises from_date to_date blobs : forall acc b e,
  b ∈ blobs -> content b = Raises e ->
  exists e', history_loop from_date to_date blobs acc = inl e'.
Proof.
  induction blobs as [|b0 blobs IH]; intros acc b e Hin Hb; simpl.
  - by apply elem_of_nil in Hin.
  - destruct (content b0) as [blob_data|e0] eqn:Hb0; [|by eexists].
    apply elem_of_cons in Hin as [->|Hin]; [congruence|]. by eapply IH.
Qed.

(** X9. One blob whose download fails makes the aggregation and the
    history of the device answer 500, while the poller skips the blob: a
    tick does exactly what it would do if the failing blobs were not in the
    container. *)
Theorem failed_download_poller_skips_handlers_fail
    container d b e p from_date to_date limit now st :
  d <> [] ->
  b ∈ list_blobs container (d ++ lit "/") ->
  content b = Raises e ->
  (exists e', get_aggregated_data (Some container) (Some d) p = Err 500 e')
  /\ (b ∈ list_blobs container (history_prefix d from_date) ->
      exists e', get_history (Some container) d from_date to_date limit
                 = Err 500 e')
  /\ poll_device container now d st
     = poll_device (downloadable container) now d st.
Proof.
  intros Hd Hin Hb. repeat apply conj.
  - unfold get_aggregated_data. destruct d as [|c d]; [done|].
    cbn [given truthy negb default from_option id].
    destruct (aggregate_loop_raises _ [] b e Hin Hb) as [e' ->]. by eexists.
  - intros Hin'. unfold get_history.
    destruct (history_loop_raises from_date to_date _ [] b e Hin' Hb)
      as [e' ->].
    by eexists.
  - rewrite !poll_device_newest. unfold newest, gathered.
    by rewrite list_blobs_downloadable, read_all_downloadable.
Qed.
End PollerProperties.

(** ** Rounding to two decimals *)

Lemma round2_hundredths x : round2 x = Qred (round_hundredths x # 100).
Proof.
  unfold round2, round_hundredths.
  by destruct (2 * ((Qnum x * 100) mod Z.pos (Qden x)) ?= Z.pos (Qden x)),
       (Z.odd (Qnum x * 100 / Z.pos (Qden x))).
Qed.

Lemma round_hundredths_bounds x :
  let n := Qnum x * 100 in
  let d := Zpos (Qden x) in
  let k := round_hundredths x in
  2 * n - d <= 2 * k * d <= 2 * n + d.
Proof.
  unfold round_hundredths. cbv zeta.
  set (n := Qnum x * 100). set (d := Z.pos (Qden x)).
  assert (0 < d) as Hd by (unfold d; lia).
  pose proof (Z.div_mod n d ltac:(lia)) as Hdm.
  pose proof (Z.mod_pos_bound n d Hd) as Hr.
  destruct (Z.compare_spec (2 * (n mod d)) d) as [Heq|Hlt|Hgt].
  - destruct (Z.odd (n / d)); nia.
  - nia.
  - nia.
Qed.



(** The rounded value is within half a hundredth of the exact one. *)
Lemma round2_close x :
  (x - (1 # 200) <= round2 x)%Q /\ (round2 x <= x + (1 # 200))%Q.
Proof.
  rewrite round2_hundredths, Qred_correct.
  pose proof (round_hundredths_bounds x) as Hb. cbv zeta in Hb.
  destruct x as [n d]. unfold Qle, Qminus, Qplus, Qopp. simpl in *.
  split; nia.
Qed.

(** A number of hundredths is its own rounding. *)
Lemma round_hundredths_exact k : round_hundredths (k # 100) = k.
Proof.
  unfold round_hundredths. simpl.
  rewrite Z.div_mul, Z.mod_mul by lia. reflexivity.
Qed.

Lemma round2_exact k : (round2 (k # 100) == k # 100)%Q.
Proof. by rewrite round2_hundredths, Qred_correct, round_hundredths_exact. Qed.

(** ** Outcomes of the irrigation recommendation *)

Section IrrigationOutcomes.
Context `{PyRuntime}.
#[local] Open Scope Q_scope.

(** X10. The irrigation request fails in two ways only, and never changes
    the state when it fails: 400 when the device identifier is missing or
    empty; 404 "Could not retrieve current data" when the device is not
    cached and the fetch of its current reading fails, whatever the fetch
    answered (503 without storage, 404 without blobs or readings, 500 for
    a failed download). *)
Theorem get_irrigation_recommendation_errors client now d crop st st' code e :
  get_irrigation_recommendation client now d crop st = (st', Err code e) ->
  st' = st
  /\ ((code = 400%Z /\ e = lit "device_id parameter required"
       /\ given d = false)
      \/ (code = 404%Z /\ e = lit "Could not retrieve current data"
          /\ exists device code' e',
              d = Some device /\ device <> []
              /\ latest_readings st !! device = None
              /\ get_current_reading client device st
                 = (st, Err code' e'))).
Proof.
  destruct d as [[|c device]|].
  - intros [= <- <- <-]. split; [done|]. by left.
  - rewrite get_irrigation_recommendation_eq by done. cbv zeta.
    destruct (latest_readings st !! (c :: device)) as [r|] eqn:Hr.
    + rewrite (get_current_reading_hit _ _ _ r Hr). simpl. by rewrite Hr.
    + pose proof (get_current_reading_miss client (c :: device) st Hr) as Hm.
      destruct (get_current_reading client (c :: device) st)
        as [st1 [r|code' e']] eqn:Hg; subst st1; simpl.
      * by rewrite lookup_insert_eq.
      * rewrite Hr. intros [= <- <- <-]. split; [done|]. right.
        repeat split; try done. by exists (c :: device), code', e'.
  - intros [= <- <- <-]. split; [done|]. by left.
Qed.

End IrrigationOutcomes.

(** ** Statistics of the aggregation *)









(** ** History and blob listing *)

Lemma startswith_app p s : startswith p (p ++ s) = true.
Proof. induction p as [|c p IH]; simpl; [done|]. by rewrite N.eqb_refl. Qed.

Lemma startswith_inv p s :
  startswith p s = true -> exists rest, s = p ++ rest.
Proof.
  revert s. induction p as [|c p IH]; intros s; simpl.
  - intros _. by exists s.
  - destruct s as [|c' s]; [done|].
    destruct (N.eqb_spec c c') as [->|]; [|done]. simpl.
    intros [rest ->]%IH. by exists rest.
Qed.

Lemma startswith_common d p s :
  startswith (d ++ p) (d ++ s) = startswith p s.
Proof. induction d as [|c d IH]; simpl; [done|]. by rewrite N.eqb_refl. Qed.

(** The prefix of a history query with a [from] date does not begin any
    name under the partition directory 0, unless [from] begins with 0. *)
Lemma history_prefix_misses_partition d c from_date rest :
  c <> 48%N ->
  startswith (history_prefix d (Some (c :: from_date)))
    (d ++ lit "/0/" ++ rest) = false.
Proof.
  intros Hc. unfold history_prefix.
  cbn [given truthy negb default from_option id].
  rewrite <- !app_assoc, startswith_common.
  cbn [take Nat.add]. change (lit "/") with [47%N].
  change (lit "/0/" ++ rest) with (47%N :: 48%N :: 47%N :: rest).
  unfold replace. cbn [app startswith flat_map].
  rewrite N.eqb_refl. cbn [andb].
  destruct (N.eqb_spec c 45) as [->|Hne]; cbn [app startswith]; [done|].
  by destruct (N.eqb_spec c 48).
Qed.

Section HistoryEdges.
Context `{PyRuntime}.

(** X14. For every limit whatsoever the readings [get_history] returns are
    a final segment of the readings in range sorted by timestamp: they all
    lie in the requested range, ascend by timestamp, and the count is their
    number. A limit of 0 returns every reading in range, and a negative
    limit [-k] leaves out the [k] oldest of them. *)
Theorem get_history_any_limit container d from_date to_date limit :
  Forall (fun b => exists blob_data, content b = Data blob_data)
    (list_blobs container (history_prefix d from_date)) ->
  let found :=
    List.filter (in_range from_date to_date)
      (read_all (list_blobs container (history_prefix d from_date))) in
  exists h,
    get_history (Some container) d from_date to_date limit = Ok h
    /\ readings h `suffix_of` sort_by get_timestamp found
    /\ Forall (fun r => in_range from_date to_date r = true) (readings h)
    /\ StronglySorted (key_le get_timestamp) (readings h)
    /\ count h = length (readings h)
    /\ (limit = 0 -> readings h = sort_by get_timestamp found)
    /\ (limit < 0 ->
        readings h = drop (Z.to_nat (- limit)) (sort_by get_timestamp found)).
Proof.
  intros Hdata found. unfold get_history.
  rewrite (history_loop_data _ _ _ [] Hdata). simpl app. fold found.
  eexists. split; [reflexivity|]. simpl.
  pose proof (slice_from_suffix (sort_by get_timestamp found) (- limit))
    as Hsuf.
  split; [done|]. split; [|split; [|split; [done|split]]].
  - apply Forall_forall. intros r Hr.
    apply (elem_of_suffix _ _ _ Hr) in Hsuf as Hr'. clear Hr. rename Hr' into Hr.
    rewrite sort_by_perm in Hr. unfold found in Hr.
    rewrite list_elem_of_In in Hr. by apply filter_In in Hr as [_ Hr].
  - destruct Hsuf as [k Hk].
    pose proof (sort_by_sorted get_timestamp found) as Hs.
    rewrite Hk in Hs. by apply StronglySorted_app_1_r in Hs.
  - by intros ->.
  - intros Hneg. unfold slice_from.
    destruct (Z.ltb_spec (- limit) 0); [lia|done].
Qed.

(** X15. A history query with a [from] date never sees a blob stored under
    the partition directory 0, where the simulator and the test-data
    uploader store every blob: unless [from] begins with the character 0,
    the query returns no readings from a container that holds only such
    blobs, although the same query without [from] returns them. *)
Theorem get_history_from_misses_partition
    container d c from_date to_date limit :
  c <> 48%N ->
  Forall (fun b => exists rest, name b = d ++ lit "/0/" ++ rest) container ->
  list_blobs container (history_prefix d (Some (c :: from_date))) = []
  /\ get_history (Some container) d (Some (c :: from_date)) to_date limit
     = Ok (mkHistory d [] 0)
  /\ list_blobs container (history_prefix d None) = container.
Proof.
  intros Hc Hnames.
  assert (list_blobs container (history_prefix d (Some (c :: from_date)))
          = []) as Hnone.
  { unfold list_blobs.
    induction Hnames as [|b bs [rest Hb] _ IH]; [done|].
    cbn [List.filter]. rewrite IH, Hb.
    by rewrite history_prefix_misses_partition. }
  split; [done|]. split.
  - unfold get_history. rewrite Hnone. cbn [history_loop sort_by].
    cbv zeta. unfold sort_by, slice_from. cbn [foldr].
    by destruct (_ <? _); rewrite drop_nil.
  - clear Hnone. unfold list_blobs, history_prefix. cbn [given].
    induction Hnames as [|b bs [rest Hb] _ IH]; [done|].
    cbn [List.filter]. rewrite IH, Hb.
    change (d ++ lit "/0/" ++ rest) with (d ++ lit "/" ++ lit "0/" ++ rest).
    by rewrite app_assoc, startswith_app.
Qed.

Lemma slash_free_prefix d1 d2 r1 r2 :
  slash_free d1 -> slash_free d2 ->
  d1 ++ 47%N :: r1 = d2 ++ 47%N :: r2 -> d1 = d2.
Proof.
  unfold slash_free. revert d2.
  induction d1 as [|c d1 IH]; intros [|c2 d2] H1 H2; simpl; intros Heq.
  - done.
  - injection Heq as <- _. exfalso. apply H2. apply list_elem_of_here.
  - injection Heq as -> _. exfalso. apply H1. apply list_elem_of_here.
  - injection Heq as -> Heq. f_equal.
    apply (IH d2); [ |  | done].
    + intros Hin. apply H1. by apply list_elem_of_further.
    + intros Hin. apply H2. by apply list_elem_of_further.
Qed.

Lemma list_blobs_without_device container d1 d2 :
  slash_free d1 -> slash_free d2 -> d1 <> d2 ->
  list_blobs (without_device d2 container) (d1 ++ lit "/")
  = list_blobs container (d1 ++ lit "/").
Proof.
  intros H1 H2 Hne. unfold list_blobs, without_device.
  induction container as [|b bs IH]; simpl; [done|].
  destruct (startswith (d1 ++ lit "/") (name b)) eqn:Hp1.
  - destruct (startswith (d2 ++ lit "/") (name b)) eqn:Hp2; simpl.
    + exfalso. apply Hne.
      apply startswith_inv in Hp1 as [r1 Hr1].
      apply startswith_inv in Hp2 as [r2 Hr2].
      rewrite <- !app_assoc in Hr1, Hr2.
      change (lit "/" ++ r1) with (47%N :: r1) in Hr1.
      change (lit "/" ++ r2) with (47%N :: r2) in Hr2.
      apply (slash_free_prefix d1 d2 r1 r2); [done|done|congruence].
    + by rewrite Hp1, IH.
  - destruct (startswith (d2 ++ lit "/") (name b)); simpl; [done|].
    by rewrite Hp1.
Qed.

(** X16. Devices whose identifiers contain no slash do not see each
    other's blobs: removing every blob of one device from the container
    changes nothing of what the poller, the current-reading fetch, the
    aggregation and the history do for another device. *)
Theorem devices_do_not_share_blobs
    container d1 d2 now p to_date limit st :
  slash_free d1 -> slash_free d2 -> d1 <> d2 ->
  gathered (without_device d2 container) d1 = gathered container d1
  /\ poll_device (without_device d2 container) now d1 st
     = poll_device container now d1 st
  /\ get_current_reading (Some (without_device d2 container)) d1 st
     = get_current_reading (Some container) d1 st
  /\ get_aggregated_data (Some (without_device d2 container)) (Some d1) p
     = get_aggregated_data (Some container) (Some d1) p
  /\ get_history (Some (without_device d2 container)) d1 None to_date limit
     = get_history (Some container) d1 None to_date limit.
Proof.
  intros H1 H2 Hne.
  pose proof (list_blobs_without_device container d1 d2 H1 H2 Hne) as Hl.
  unfold gathered, poll_device, get_current_reading, get_aggregated_data,
    get_history, history_prefix.
  cbn [given default from_option id]. rewrite !Hl.
  repeat (split; [reflexivity|]). reflexivity.
Qed.
End HistoryEdges.

(** ** The simulator's upload and the parser *)

Lemma split_no_sep l : 10%N ∉ l -> split 10 l = [l].
Proof.
  induction l as [|c l IH]; intros Hno; simpl; [done|].
  apply not_elem_of_cons in Hno as [Hc Hl].
  destruct (N.eqb_spec c 10) as [->|_]; [done|]. by rewrite IH.
Qed.

Lemma split_line l s :
  10%N ∉ l -> split 10 (l ++ 10%N :: s) = l :: split 10 s.
Proof.
  induction l as [|c l IH]; intros Hno; simpl; [done|].
  apply not_elem_of_cons in Hno as [Hc Hl].
  destruct (N.eqb_spec c 10) as [->|_]; [done|]. by rewrite IH.
Qed.

Lemma split_join_lines lines :
  lines <> [] -> Forall (fun l => 10%N ∉ l) lines ->
  split 10 (join_lines lines) = lines.
Proof.
  intros Hne Hall. induction Hall as [|l ls Hl Hls IH]; [done|].
  destruct ls as [|l2 ls]; [by apply split_no_sep|].
  change (join_lines (l :: l2 :: ls)) with (l ++ 10%N :: join_lines (l2 :: ls)).
  rewrite split_line by done. by rewrite IH.
Qed.

(** A text that begins and ends with a character other than whitespace is
    its own [strip]. *)
Lemma strip_tight c u t z :
  is_space c = false -> is_space z = false ->
  c :: u = t ++ [z] -> strip (c :: u) = c :: u.
Proof.
  intros Hc Hz Heq. unfold strip. simpl lstrip at 2. rewrite Hc.
  rewrite Heq, rev_app_distr. simpl. rewrite Hz. simpl.
  by rewrite rev_involutive.
Qed.

(** The parser on a shard whose non-blank lines decode to [rs]. *)
Lemma parse_blob_data_decoded `{PyRuntime} blob_content text rs :
  content_text blob_content = Some text ->
  Forall2 (fun l r => json_loads l = Some r) (nonblank_lines text) rs ->
  parse_blob_data blob_content = rs.
Proof.
  intros Ht Hrs. unfold parse_blob_data. rewrite Ht.
  pose proof (parse_lines_inv (split 10 (strip text)) []) as Hinv.
  fold (nonblank_lines text) in Hinv.
  destruct (parse_lines (split 10 (strip text)) []) as [out|].
  - destruct Hinv as (rs' & -> & Hrs'). simpl.
    clear Ht. revert rs' Hrs'.
    induction Hrs as [|l r ls rs0 Hl _ IH]; intros rs' Hrs';
      inversion Hrs'; subst; [done|].
    f_equal; [congruence | auto].
  - exfalso. apply Exists_exists in Hinv as (l & Hin & Hnone).
    clear Ht. induction Hrs as [|l0 r ls rs0 Hl _ IH]; [by inversion Hin|].
    inversion Hin; subst; [congruence | auto].
Qed.

Section UploadProperties.
Context `{PyRuntime}.
Variable json_dumps : Reading -> str.
Variable strftime : str -> datetime -> str.

Lemma startswith_partition d rest :
  startswith (d ++ lit "/") (d ++ lit "/0/" ++ rest) = true.
Proof. by rewrite startswith_common. Qed.

Lemma simulator_blob_name_listed device_id data n :
  simulator_blob_name strftime device_id data = Some n ->
  startswith (device_id ++ lit "/") n = true.
Proof.
  unfold simulator_blob_name.
  destruct (timestamp data) as [s|]; [|done]. cbn [mbind option_bind].
  destruct (fromisoformat _) as [t|]; [|done]. cbn [mbind option_bind].
  intros [= <-]. apply startswith_partition.
Qed.

Lemma dumps_tight r :
  dumps_one_line json_dumps r ->
  strip (json_dumps r) = json_dumps r /\ (10%N ∉ json_dumps r)
  /\ truthy (strip (json_dumps r)) = true.
Proof.
  intros (_ & body & Hb & Hno).
  assert (strip (json_dumps r) = json_dumps r) as Hs.
  { rewrite Hb. by apply (strip_tight _ _ (123%N :: body) 125%N). }
  split; [done|]. split; [|by rewrite Hs, Hb].
  rewrite Hb. intros Hin. apply elem_of_cons in Hin as [?|Hin]; [done|].
  apply elem_of_app in Hin as [?|Hin]; [done|].
  by apply list_elem_of_singleton in Hin.
Qed.

Lemma join_lines_tight rs :
  rs <> [] -> Forall (dumps_one_line json_dumps) rs ->
  strip (join_lines (json_dumps <$> rs)) = join_lines (json_dumps <$> rs).
Proof.
  intros Hne Hall.
  assert (exists u t, join_lines (json_dumps <$> rs) = 123%N :: u
                      /\ join_lines (json_dumps <$> rs) = t ++ [125%N])
    as (u & t & Hu & Ht).
  { induction Hall as [|r rs' (_ & body & Hb & _) Hrs IH]; [done|].
    destruct rs' as [|r2 rs'].
    - simpl. rewrite Hb. by exists (body ++ [125%N]), (123%N :: body).
    - destruct IH as (u & t & Hu & Ht); [done|].
      change (join_lines (json_dumps <$> r :: r2 :: rs'))
        with (json_dumps r ++ 10%N :: join_lines (json_dumps <$> r2 :: rs')).
      rewrite Hb. eexists _, (123%N :: body ++ [125%N] ++ 10%N :: t).
      split; [reflexivity|]. rewrite Ht. simpl.
      by rewrite <- !app_assoc. }
  rewrite Hu. apply (strip_tight _ _ t 125%N); [done|done|].
  by rewrite <- Hu.
Qed.

Lemma parse_lines_dumps rs : forall data,
  Forall (dumps_one_line json_dumps) rs ->
  parse_lines (json_dumps <$> rs) data = Some (data ++ rs).
Proof.
  induction rs as [|r rs IH]; intros data Hall; simpl.
  - by rewrite app_nil_r.
  - inversion Hall as [|? ? Hr Hrs]; subst.
    destruct (dumps_tight r Hr) as (_ & _ & ->).
    destruct Hr as [-> _]. rewrite IH by done. by rewrite <- app_assoc.
Qed.

(** X17. What the simulator uploads, the API reads back: when every
    reading involved is written by [json.dumps] as one line that
    [json.loads] reads back, the text of an upload parses to the readings
    the simulator found in the blob followed by the new reading, in that
    order; and the name of the blob lies under the prefix the poller lists
    for the device. *)
Theorem upload_then_parse device_id container data blob_name text :
  upload_to_blob_storage json_dumps strftime device_id container data
  = Some (blob_name, text) ->
  Forall (dumps_one_line json_dumps)
    (existing_readings (find_blob container blob_name) ++ [data]) ->
  (forall blob_content,
      content_text blob_content = Some text ->
      parse_blob_data blob_content
      = existing_readings (find_blob container blob_name) ++ [data])
  /\ startswith (device_id ++ lit "/") blob_name = true.
Proof.
  unfold upload_to_blob_storage.
  destruct (simulator_blob_name strftime device_id data) as [n|] eqn:Hn;
    [|done].
  simpl. intros [= <- <-] Hall. split.
  - intros blob_content Ht. unfold parse_blob_data. rewrite Ht.
    set (rs := existing_readings (find_blob container n) ++ [data]) in *.
    assert (rs <> []) as Hne by (unfold rs; by destruct (existing_readings _)).
    rewrite join_lines_tight by done.
    rewrite split_join_lines.
    + by rewrite parse_lines_dumps.
    + by destruct rs.
    + apply Forall_fmap. eapply Forall_impl; [exact Hall|].
      intros r Hr. by apply dumps_tight.
  - by apply (simulator_blob_name_listed device_id data).
Qed.

Lemma read_existing_nonblank lines : forall data,
  read_existing lines data
  = read_existing (List.filter (fun l => truthy (strip l)) lines) data.
Proof.
  induction lines as [|l lines IH]; intros data; simpl; [done|].
  destruct (truthy (strip l)) eqn:Hl; simpl; [|done].
  rewrite Hl. destruct (json_loads l); [apply IH|done].
Qed.

Lemma read_existing_prefix good rs : forall data rest,
  Forall (fun l => truthy (strip l) = true) good ->
  Forall2 (fun l r => json_loads l = Some r) good rs ->
  read_existing (good ++ rest) data = read_existing rest (data ++ rs).
Proof.
  intros data rest Hnb Hgood. revert data.
  induction Hgood as [|l r good rs Hl _ IH]; intros data; simpl.
  - by rewrite app_nil_r.
  - inversion Hnb as [|? ? Hl' Hnb']; subst. rewrite Hl', Hl.
    rewrite IH by done. by rewrite <- app_assoc.
Qed.

Lemma nonblank_lines_truthy text :
  Forall (fun l => truthy (strip l) = true) (nonblank_lines text).
Proof.
  unfold nonblank_lines. apply Forall_forall. intros l Hl.
  rewrite list_elem_of_In in Hl. by apply filter_In in Hl as [_ Hl].
Qed.

(** X18. The simulator and the API read the same blob differently. On a
    blob whose lines all decode they agree. On a blob with a line that does
    not decode the API's parser returns nothing, while the simulator keeps
    the readings of the lines before it and drops that line and every line
    after it; its next upload overwrites the blob with the kept readings and
    the new one. *)
Theorem simulator_keeps_readings_before_torn_line b blob_content text :
  content b = Data blob_content ->
  content_text blob_content = Some text ->
  (forall rs,
      Forall2 (fun l r => json_loads l = Some r) (nonblank_lines text) rs ->
      existing_readings (Some b) = rs /\ parse_blob_data blob_content = rs)
  /\ (forall good rs torn rest,
      nonblank_lines text = good ++ torn :: rest ->
      Forall2 (fun l r => json_loads l = Some r) good rs ->
      json_loads torn = None ->
      existing_readings (Some b) = rs
      /\ parse_blob_data blob_content = []
      /\ forall device_id container data blob_name,
          simulator_blob_name strftime device_id data = Some blob_name ->
          find_blob container blob_name = Some b ->
          upload_to_blob_storage json_dumps strftime device_id container data
          = Some (blob_name, join_lines (json_dumps <$> rs ++ [data]))).
Proof.
  intros Hb Ht. split.
  - intros rs Hrs. split.
    + unfold existing_readings. rewrite Hb, Ht, read_existing_nonblank.
      fold (nonblank_lines text).
      rewrite <- (app_nil_r (nonblank_lines text)).
      by rewrite (read_existing_prefix _ rs)
        by (done || apply nonblank_lines_truthy).
    + by apply (parse_blob_data_decoded blob_content text rs).
  - intros good rs torn rest Hlines Hgood Htorn.
    assert (existing_readings (Some b) = rs) as Hex.
    { unfold existing_readings. rewrite Hb, Ht, read_existing_nonblank.
      fold (nonblank_lines text). rewrite Hlines.
      pose proof (nonblank_lines_truthy text) as Hnb. rewrite Hlines in Hnb.
      apply Forall_app in Hnb as [Hnb1 Hnb2].
      rewrite (read_existing_prefix _ rs) by done. simpl.
      inversion Hnb2 as [|? ? Hl _]; subst. by rewrite Hl, Htorn. }
    split; [done|]. split.
    + unfold parse_blob_data. rewrite Ht.
      pose proof (parse_lines_inv (split 10 (strip text)) []) as Hinv.
      destruct (parse_lines (split 10 (strip text)) []) as [out|]; [|done].
      destruct Hinv as (rs' & -> & Hrs'). exfalso.
      fold (nonblank_lines text) in Hrs'. rewrite Hlines in Hrs'.
      apply Forall2_app_inv_l in Hrs' as (k1 & k2 & _ & Hk2 & _).
      inversion Hk2; subst. congruence.
    + intros device_id container data blob_name Hn Hf.
      unfold upload_to_blob_storage. rewrite Hn. simpl. by rewrite Hf, Hex.
Qed.
End UploadProperties.

(** ** The simulator's readings *)



Section SimulatorProperties.
Context `{PyRuntime}.

End SimulatorProperties.

(** ** The further properties on sample data *)

Section OnFixtures.
Import Sample Examples Fixtures.

(** X1 on the registration of a second device. *)
Lemma register_device_upsert_witness :
  let reg' := registry ++ [(dev2, device2)] in
  registry_get reg' dev2 = Some device2
  /\ registry_get reg' dev = registry_get registry dev
  /\ list_devices reg' = (reg', 2%nat).
Proof.
  intros reg'.
  destruct (register_device_upsert noon request2 registry reg' dev2 device2)
    as (Hget & Hother & _ & _ & Hlist).
  - vm_compute. reflexivity.
  - split; [exact Hget|]. split; [|exact Hlist].
    apply Hother. apply (bool_decide_unpack _). vm_compute. exact I.
Defined.

(** X2 on three requests: a new device, no body, a known device. *)
Lemma registry_keeps_devices_witness :
  let reg' := register_all ((noon, request2) :: later_requests) registry in
  NoDup reg'.*1 /\ dev ∈ reg'.*1 /\ (length reg' <= 4)%nat.
Proof.
  intros reg'.
  destruct (registry_keeps_devices ((noon, request2) :: later_requests)
              registry) as (Hnd & Hin & Hlen).
  - apply (bool_decide_unpack _). vm_compute. exact I.
  - split; [exact Hnd|]. split; [|exact (proj2 Hlen)].
    apply Hin. apply (bool_decide_unpack _). vm_compute. exact I.
Defined.

(** X3 on the second device, after two more requests. *)
Lemma registered_device_is_found_witness :
  (exists body,
      get_device_alerts (register_all later_requests
                           (registry ++ [(dev2, device2)]))
        dev2 None 20 fresh = Ok body)
  /\ get_device (registry ++ [(dev2, device2)]) dev2 fresh
     = Ok (mkDeviceInfo dev2 device2 None).
Proof.
  destruct (registered_device_is_found noon request2 registry
              (registry ++ [(dev2, device2)]) dev2 device2 later_requests
              0 None 20 fresh) as (_ & _ & Halerts & Hget).
  - vm_compute. reflexivity.
  - split; [exact Halerts | exact Hget].
Defined.

(** X4 on the four alerts of the stormy reading: the last critical one. *)
Lemma get_device_alerts_window_witness :
  exists body,
    get_device_alerts registry dev (Some (lit "critical")) 1 alerted = Ok body
    /\ da_count body = 1%nat
    /\ has_critical body = true.
Proof.
  destruct (get_device_alerts_window registry dev
              (mkDevice (lit "Field A Sensor") (50%Q, 20%Q)
                 (lit "2025-01-01T00:00:00+00:00") (lit "online"))
              (Some (lit "critical")) 1 alerted)
    as (body & Hok & Halerts & Hcount & _).
  - vm_compute. reflexivity.
  - lia.
  - exists body. split; [exact Hok|]. split.
    + rewrite Hcount. vm_compute. reflexivity.
    + injection Hok as <-. vm_compute. reflexivity.
Defined.

(** X5 after a tick and a fetch, with limit 0. *)
Lemma alert_history_bound_invariant_witness :
  let ops := [PollTick (Some undated) noon registry;
              CurrentReading (Some january) dev] in
  histories_bounded (run ops fresh)
  /\ (da_count (body_or no_alerts
                  (get_device_alerts registry dev None 0 (run ops fresh)))
      <= 50)%nat.
Proof.
  intros ops.
  destruct (alert_history_bound_invariant ops registry dev None 0
              (body_or no_alerts
                 (get_device_alerts registry dev None 0 (run ops fresh))))
    as (Hinv & Hcount & _).
  - vm_compute. reflexivity.
  - split; [exact Hinv | exact Hcount].
Defined.

(** X6 on the January shard. *)
Lemma poll_once_idempotent_witness :
  poll_once (Some january) (lit "2025-01-15T12:05:00+00:00") registry
    (poll_once (Some january) noon registry fresh)
  = poll_once (Some january) noon registry fresh.
Proof.
  apply poll_once_idempotent. intros d latest Hd Hnewest.
  change (registry.*1) with [dev] in Hd.
  apply list_elem_of_singleton in Hd. subst d.
  assert (newest january dev = Some (at_time "2025-01-15T10:00:00+00:00"))
    as Hn by (vm_compute; reflexivity).
  rewrite Hn in Hnewest. injection Hnewest as <-. discriminate.
Defined.

(** X7 on a reading without timestamp: two ticks, two frost alerts. *)
Lemma poll_without_timestamps_repeats_witness :
  alert_types noon (with_temperature (-5)) = [frost]
  /\ length (default [] (alerts (poll_device_times undated dev [noon; noon]
                                   fresh) !! dev)) = 2%nat
  /\ latest_readings (poll_device_times undated dev [noon; noon] fresh) !! dev
     = Some (with_temperature (-5)).
Proof.
  destruct (poll_without_timestamps_repeats undated dev
              (with_temperature (-5)) [noon; noon] fresh)
    as (Halerts & Hcache).
  - vm_compute. reflexivity.
  - reflexivity.
  - vm_compute. reflexivity.
  - split; [vm_compute; reflexivity|]. split.
    + rewrite Halerts. vm_compute. reflexivity.
    + by apply Hcache.
Defined.

(** X8 on a device that is not registered. *)
Lemma poll_once_frame_witness :
  latest_readings (poll_once (Some shared) noon registry fresh) !! dev2 = None
  /\ alerts (poll_once (Some shared) noon registry fresh) !! dev2 = None.
Proof.
  apply (poll_once_frame (Some shared) noon registry fresh dev2).
  apply (bool_decide_unpack _). vm_compute. exact I.
Defined.

(** X13 on a cached device, after a tick and a fetch without storage. *)
Lemma cache_entry_never_removed_witness :
  is_Some (latest_readings
             (run [PollTick (Some january) noon registry;
                   CurrentReading None dev] (cached dry)) !! dev).
Proof.
  apply cache_entry_never_removed.
  apply (bool_decide_unpack _). vm_compute. exact I.
Defined.

(** X9 on a container whose first blob fails to download. *)
Lemma failed_download_poller_skips_handlers_fail_witness :
  (exists e', get_aggregated_data (Some broken) (Some dev) (lit "day")
              = Err 500 e')
  /\ (exists e', get_history (Some broken) dev None None 20 = Err 500 e')
  /\ poll_device broken noon dev fresh = poll_device january noon dev fresh.
Proof.
  destruct (failed_download_poller_skips_handlers_fail broken dev failing
              (lit "timeout") (lit "day") None None 20 noon fresh)
    as (Hagg & Hhist & Hpoll).
  - discriminate.
  - assert (list_blobs broken (dev ++ lit "/") = broken) as ->
      by (vm_compute; reflexivity).
    apply list_elem_of_here.
  - reflexivity.
  - split; [exact Hagg|]. split.
    + apply Hhist.
      assert (list_blobs broken (history_prefix dev None) = broken) as ->
        by (vm_compute; reflexivity).
      apply list_elem_of_here.
    + rewrite Hpoll. vm_compute. reflexivity.
Defined.

(** X10 without storage: the 503 of the fetch becomes a 404. *)
Lemma get_irrigation_recommendation_errors_witness :
  get_irrigation_recommendation None noon (Some dev) (lit "wheat") fresh
  = (fresh, Err 404 (lit "Could not retrieve current data"))
  /\ exists code' e',
      get_current_reading None dev fresh = (fresh, Err code' e').
Proof.
  destruct (get_irrigation_recommendation_errors None noon (Some dev)
              (lit "wheat") fresh fresh 404
              (lit "Could not retrieve current data"))
    as (_ & [(Hcode & _) | (_ & _ & device & code' & e' & Hd & _ & _ & Hg)]).
  - vm_compute. reflexivity.
  - discriminate.
  - split; [vm_compute; reflexivity|].
    injection Hd as <-. by exists code', e'.
Defined.



(** X14 on two shards with limit 0: both readings. *)
Lemma get_history_any_limit_witness :
  exists h,
    get_history (Some two_shards) dev None None 0 = Ok h
    /\ count h = 2%nat
    /\ StronglySorted (key_le get_timestamp) (readings h).
Proof.
  destruct (get_history_any_limit two_shards dev None None 0)
    as (h & Hok & _ & _ & Hsorted & Hcount & Hzero & _).
  - assert (list_blobs two_shards (history_prefix dev None) = two_shards)
      as -> by (vm_compute; reflexivity).
    unfold two_shards, blob_at. repeat constructor; by eexists.
  - exists h. split; [exact Hok|]. split; [|exact Hsorted].
    rewrite Hcount, (Hzero eq_refl). vm_compute. reflexivity.
Defined.

(** X15 on the range of January 2025 over the January shard. *)
Lemma get_history_from_misses_partition_witness :
  get_history (Some january) dev (Some (lit "2025-01-01"))
    (Some (lit "2025-01-31")) 20
  = Ok (mkHistory dev [] 0)
  /\ list_blobs january (history_prefix dev None) = january.
Proof.
  destruct (get_history_from_misses_partition january dev 50%N
              (lit "025-01-01") (Some (lit "2025-01-31")) 20)
    as (_ & Hhist & Hall).
  - discriminate.
  - unfold january, blob_at. repeat constructor.
    by exists (lit "2025/01/15/10/00").
  - split; [exact Hhist | exact Hall].
Defined.

(** X16 on the blobs of two devices. *)
Lemma devices_do_not_share_blobs_witness :
  gathered (without_device dev2 shared) dev = gathered shared dev
  /\ get_history (Some (without_device dev2 shared)) dev None None 20
     = get_history (Some shared) dev None None 20.
Proof.
  destruct (devices_do_not_share_blobs shared dev dev2 noon (lit "day")
              None 20 fresh) as (Hg & _ & _ & _ & Hh).
  - apply (bool_decide_unpack _). vm_compute. exact I.
  - apply (bool_decide_unpack _). vm_compute. exact I.
  - apply (bool_decide_unpack _). vm_compute. exact I.
  - split; [exact Hg | exact Hh].
Defined.

(** X17 on a second reading of the minute the January shard holds. *)
Lemma upload_then_parse_witness :
  let text := line_at "2025-01-15T10:00:00+00:00" ++ nl
              ++ line_at "2025-01-15T10:00:30+00:00" in
  upload_to_blob_storage dumps format_time dev january
    (at_time "2025-01-15T10:00:30+00:00")
  = Some (dev ++ lit "/0/2025/01/15/10/00", text)
  /\ parse_blob_data (Bytes (bytes_of text))
     = [at_time "2025-01-15T10:00:00+00:00";
        at_time "2025-01-15T10:00:30+00:00"].
Proof.
  intros text.
  assert (upload_to_blob_storage dumps format_time dev january
            (at_time "2025-01-15T10:00:30+00:00")
          = Some (dev ++ lit "/0/2025/01/15/10/00", text)) as Hup
    by (vm_compute; reflexivity).
  split; [exact Hup|].
  destruct (upload_then_parse dumps format_time dev january
              (at_time "2025-01-15T10:00:30+00:00")
              (dev ++ lit "/0/2025/01/15/10/00") text Hup) as [Hparse _].
  - assert (existing_readings (find_blob january
                                 (dev ++ lit "/0/2025/01/15/10/00"))
            = [at_time "2025-01-15T10:00:00+00:00"]) as ->
        by (vm_compute; reflexivity).
    repeat constructor.
    + exists (member_text "timestamp" "2025-01-15T10:00:00+00:00").
      split; [vm_compute; reflexivity|].
      apply (bool_decide_unpack _). vm_compute. exact I.
    + exists (member_text "timestamp" "2025-01-15T10:00:30+00:00").
      split; [vm_compute; reflexivity|].
      apply (bool_decide_unpack _). vm_compute. exact I.
  - rewrite (Hparse (Bytes (bytes_of text))) by (vm_compute; reflexivity).
    vm_compute. reflexivity.
Defined.

(** X18 on the torn shard: the simulator keeps the first reading, the
    parser returns nothing. *)
Lemma simulator_keeps_readings_before_torn_line_witness :
  existing_readings (Some torn_blob) = [at_time "2025-01-15T10:00:00+00:00"]
  /\ parse_blob_data (Bytes (bytes_of torn)) = [].
Proof.
  destruct (simulator_keeps_readings_before_torn_line dumps format_time
              torn_blob (Bytes (bytes_of torn)) torn) as [_ Htorn].
  - reflexivity.
  - vm_compute. reflexivity.
  - destruct (Htorn [line_at "2025-01-15T10:00:00+00:00"]
                [at_time "2025-01-15T10:00:00+00:00"]
                (lit "{" ++ dq ++ lit "timestamp") [])
      as (Hkept & Hparse & _).
    + vm_compute. reflexivity.
    + repeat constructor.
    + vm_compute. reflexivity.
    + split; [exact Hkept | exact Hparse].
Defined.

End OnFixtures.
